(** * The MCP HTTP adapter of rei360: governance of tool execution

    A shallow embedding of [packages/mcp-core/mcp_http_adapter.py]: the
    in-memory token bucket guarding CRITICAL operations, the registry
    builder, the shared-secret key check and the [execute] endpoint with
    its approval workflow, dry-run answer and synchronous dispatch.

    Python values are modelled by a small JSON-like type, dictionaries
    whose iteration order is observable by association lists, the tool
    registry by a finite map.  Where [execute] is concerned the clock
    readings and token counts are exact rationals, which is what the
    order of its checks, its effects and its envelopes are proved over;
    the module [Binary64] gives the bucket and the rate-limit gate in the
    binary64 arithmetic of the code, and the refill behaviour of the
    bucket is settled there. *)

From Stdlib Require Import QArith Qminmax Lqa PrimFloat.
From Stdlib Require Uint63.
From stdpp Require Import gmap strings list fin_maps.

Set Warnings "-register-all".

Local Open Scope Z_scope.
Local Open Scope string_scope.

(** ** Python values *)

Module Py.

(** The values that can travel through a [Dict[str, Any]]. *)
Inductive value : Type :=
| None_
| Bool (b : bool)
| Int (z : Z)
| Float (q : Q)
| Str (s : string)
| List (l : list value)
| Dict (d : list (string * value)).

Definition dict : Type := list (string * value).

(** [bool(v)]: Python truthiness. *)
Definition truthy (v : value) : bool :=
  match v with
  | None_ => false
  | Bool b => b
  | Int z => negb (z =? 0)%Z
  | Float q => negb (Qeq_bool q 0)
  | Str s => negb (String.eqb s "")
  | List l => match l with [] => false | _ => true end
  | Dict d => match d with [] => false | _ => true end
  end.

(** [d.get(k)] as an option: the first binding of [k]. *)
Fixpoint lookup (k : string) (d : dict) : option value :=
  match d with
  | [] => None
  | (k', v) :: d' => if String.eqb k k' then Some v else lookup k d'
  end.

(** [d.get(k, dflt)]. *)
Definition get (d : dict) (k : string) (dflt : value) : value :=
  match lookup k d with Some v => v | None => dflt end.

(** [d.get(k)], which is [None] for an absent key. *)
Definition get_none (d : dict) (k : string) : value := get d k None_.

(** [d[k] = v]: the binding is replaced in place, or added at the end. *)
Fixpoint set (k : string) (v : value) (d : dict) : dict :=
  match d with
  | [] => [(k, v)]
  | (k', v') :: d' =>
      if String.eqb k k' then (k, v) :: d' else (k', v') :: set k v d'
  end.

(** [list(d.keys())]. *)
Definition keys (d : dict) : list string := map fst d.

(** [v == s] for a string literal [s]. *)
Definition eq_str (v : value) (s : string) : bool :=
  match v with Str s' => String.eqb s' s | _ => false end.

(** [k in xs] for a list of strings. *)
Definition mem (k : string) (xs : list string) : bool :=
  existsb (String.eqb k) xs.

End Py.

(** ** The token bucket for critical operations

    The bucket as [execute] threads it, with clock readings and token
    counts as exact rationals.  The code computes in binary64: the two
    agree as long as the float operations are exact, and what is proved
    over this bucket (the order of the checks, which requests touch it,
    that it stays well-formed) does not turn on rounding.  The bucket in
    the code's own arithmetic is [Binary64._Bucket], further down. *)

Local Open Scope Q_scope.

(** [class _Bucket]: the attributes set by [__init__]. *)
Record _Bucket : Type := mk_Bucket {
  max_tokens : Z;
  refill_seconds : Z;
  tokens : Q;
  last : Q
}.

(** [_Bucket.__init__(max_tokens, refill_seconds)] at clock reading [time]. *)
Definition Bucket_init (max refill : Z) (time : Q) : _Bucket :=
  {| max_tokens := max; refill_seconds := refill;
     tokens := inject_Z max; last := time |}.

(** [x < y] on rationals as a boolean. *)
Definition Qlt_bool (x y : Q) : bool := negb (Qle_bool y x).

(** Python's [min(a, b)]: [b] when [b < a], otherwise [a]. *)
Definition py_min (a b : Q) : Q := if Qlt_bool b a then b else a.

(** The lazy refill at the head of [can_consume].  [None] stands for the
    [ZeroDivisionError] of [max_tokens / refill_seconds]. *)
Definition refill (self : _Bucket) (now : Q) : option _Bucket :=
  let elapsed := now - last self in
  if Qlt_bool 0 elapsed then
    if (refill_seconds self =? 0)%Z then None
    else
      let rate := inject_Z (max_tokens self) / inject_Z (refill_seconds self) in
      Some {| max_tokens := max_tokens self;
              refill_seconds := refill_seconds self;
              tokens := py_min (inject_Z (max_tokens self))
                               (tokens self + elapsed * rate);
              last := now |}
  else Some self.

(** The check-and-decrement at the tail of [can_consume]. *)
Definition take (self : _Bucket) (amt : Z) : bool * _Bucket :=
  if Qle_bool (inject_Z amt) (tokens self) then
    (true, {| max_tokens := max_tokens self;
              refill_seconds := refill_seconds self;
              tokens := tokens self - inject_Z amt;
              last := last self |})
  else (false, self).

(** [_Bucket.can_consume(amt)] at clock reading [now]. *)
Definition can_consume (self : _Bucket) (amt : Z) (now : Q)
  : option (bool * _Bucket) :=
  match refill self now with
  | None => None
  | Some self' => Some (take self' amt)
  end.

(** [_critical_bucket = _Bucket(5, 3600)], created at [time]. *)
Definition _critical_bucket (time : Q) : _Bucket := Bucket_init 5 3600 time.

(** ** Tool descriptors and the registry *)

Local Close Scope Q_scope.

(** A tool's [inputSchema]: its [properties] and [required] entries, each
    possibly absent. *)
Record Schema : Type := {
  properties : option (list (string * Py.dict));
  required : option (list string)
}.

(** One element of the list returned by [_load_tools_from_main]. *)
Record RawTool : Type := {
  raw_name : string;
  raw_description : string;
  raw_inputSchema : option Schema;
  raw_governance : option Py.dict
}.

(** One element of a registry entry's ["parameters"] list. *)
Record Param : Type := {
  param_name : string;
  param_type : Py.value;
  param_description : Py.value;
  param_required : bool
}.

(** A registry entry. *)
Record Tool : Type := {
  name : string;
  description : string;
  parameters : list Param;
  rate_limit_level : Py.value;
  approval_required : bool
}.

(** [x or dflt] for an optional list or dictionary: [None] and the empty
    container are falsy. *)
Definition or_else {A : Type} (x : option (list A)) (dflt : list A) : list A :=
  match x with
  | Some (y :: ys) => y :: ys
  | _ => dflt
  end.

(** [schema = t.get("inputSchema") or {}]. *)
Definition empty_schema : Schema := {| properties := None; required := None |}.

Definition schema_of (t : RawTool) : Schema :=
  match raw_inputSchema t with Some s => s | None => empty_schema end.

(** The inner loop of [_build_registry] over the schema's properties. *)
Definition build_params (schema : Schema) : list Param :=
  map (fun kv : string * Py.dict =>
         {| param_name := fst kv;
            param_type := Py.get (snd kv) "type" (Py.Str "string");
            param_description := Py.get (snd kv) "description" (Py.Str "");
            param_required := Py.mem (fst kv) (or_else (required schema) []) |})
      (or_else (properties schema) []).

(** [{"level": "MEDIUM", "allowed": True}]. *)
Definition default_governance : Py.dict :=
  [("level", Py.Str "MEDIUM"); ("allowed", Py.Bool true)].

(** The body of the outer loop of [_build_registry]: the entry stored
    under the tool's name. *)
Definition registry_entry (t : RawTool) : Tool :=
  let gov := or_else (raw_governance t) default_governance in
  {| name := raw_name t;
     description := raw_description t;
     parameters := build_params (schema_of t);
     rate_limit_level := Py.get gov "level" (Py.Str "MEDIUM");
     approval_required := Py.eq_str (Py.get_none gov "level") "CRITICAL" |}.

(** [_load_tools_from_main]: the provider's tools, or the empty list when
    importing [main_extended] fails. *)
Definition _load_tools_from_main (main_extended : option (list RawTool))
  : list RawTool :=
  match main_extended with Some ts => ts | None => [] end.

(** [_build_registry]: later descriptors overwrite earlier ones of the
    same name. *)
Definition _build_registry (main_extended : option (list RawTool))
  : gmap string Tool :=
  foldl (fun reg t => <[raw_name t := registry_entry t]> reg) ∅
        (_load_tools_from_main main_extended).

(** The descriptor carries no governance classification: no governance
    entry (or an empty one), or one without a ["level"]. *)
Definition governance_missing (t : RawTool) : bool :=
  match raw_governance t with
  | None | Some [] => true
  | Some d => match Py.lookup "level" d with None => true | Some _ => false end
  end.

(** ** Configuration and the key check *)

Record Config : Type := {
  SAFE_MODE : bool;
  MCP_API_KEY : string
}.

(** [x_mcp_key == MCP_API_KEY] for an optional header. *)
Definition key_matches (cfg : Config) (x_mcp_key : option string) : bool :=
  match x_mcp_key with
  | Some k => String.eqb k (MCP_API_KEY cfg)
  | None => false
  end.

Definition _validate_key (cfg : Config) (x_mcp_key : option string)
    (read_only : bool) : bool :=
  if SAFE_MODE cfg then key_matches cfg x_mcp_key || read_only else true.

(** ** Requests, responses and the collaborators of [execute] *)

(** [class ExecuteRequest(BaseModel)]. *)
Record ExecuteRequest : Type := {
  tool_name : string;
  arguments : Py.dict;
  dry_run : bool;
  request_id : option string
}.

(** The same request with ["_approved": True] put into its arguments. *)
Definition approved (req : ExecuteRequest) : ExecuteRequest :=
  {| tool_name := tool_name req;
     arguments := Py.set "_approved" (Py.Bool true) (arguments req);
     dry_run := dry_run req;
     request_id := request_id req |}.

(** A JSON request body: the declared fields, each optional but the tool
    name, and whatever other top-level keys the caller sent. *)
Record RequestBody : Type := {
  body_tool_name : string;
  body_arguments : option Py.dict;
  body_dry_run : option bool;
  body_request_id : option string;
  body_extra : Py.dict
}.

(** Validation of a body against [ExecuteRequest]: defaults for the absent
    fields; keys that are not fields of the model are dropped. *)
Definition ExecuteRequest_of_body (b : RequestBody) : ExecuteRequest :=
  {| tool_name := body_tool_name b;
     arguments := match body_arguments b with Some d => d | None => [] end;
     dry_run := match body_dry_run b with Some d => d | None => false end;
     request_id := body_request_id b |}.

(** What [call_tool] hands back.  An item of a returned list is a plain
    JSON value or an object, known by the name of its class and by its
    [text] attribute when it has one; the result itself is a JSON value,
    a list of items, or an object that is no list. *)
Inductive content_item : Type :=
| Plain (v : Py.value)
| Object_ (class_name : string) (text : option string).

Inductive tool_result : Type :=
| Value (v : Py.value)
| Contents (items : list content_item)
| Opaque (class_name : string).

(** What [json.dumps] stumbles on when [JSONResponse] renders a result:
    the class of the first object in it, if there is one. *)
Fixpoint first_object (items : list content_item) : option string :=
  match items with
  | [] => None
  | Plain _ :: rest => first_object rest
  | Object_ class_name _ :: _ => Some class_name
  end.

Definition unserializable (r : tool_result) : option string :=
  match r with
  | Value _ => None
  | Contents items => first_object items
  | Opaque class_name => Some class_name
  end.

(** [str(e)] of the [TypeError] that [json.dumps] raises. *)
Definition not_serializable (class_name : string) : string :=
  String.append "Object of type "
    (String.append class_name " is not JSON serializable").

(** [from main_extended import server as mcp_server]: the import may
    fail, the server may lack [call_tool], and [call_tool] may raise an
    [Exception] (right injection: its text). *)
Inductive mcp_server : Type :=
| ServerImportError (msg : string)
| ServerWithoutCallTool
| Server (call_tool : string -> Py.dict -> tool_result + string).

(** [from memory.helpers import write_local_memory]: the import may fail
    and the write may raise ([None]); otherwise it returns an identifier,
    taken here to be a JSON value.  An identifier that [json.dumps]
    cannot render, which would make the pending answer itself fail, is
    not covered. *)
Inductive memory_helpers : Type :=
| MemoryImportError
| Memory (write_local_memory : Py.dict -> option Py.value).

(** Everything [execute] reads from outside during one request. *)
Record World : Type := {
  time_now : Q;
  generated_id : string -> string;
  elapsed_ms : Q;
  json_loads : string -> option Py.value;
  server : mcp_server;
  memory : memory_helpers
}.

(** The mutable state a request can touch: the process-wide bucket, and
    the calls made so far to the durable store and to the provider. *)
Record State : Type := {
  critical_bucket : _Bucket;
  memory_writes : list Py.dict;
  tool_calls : list (string * Py.dict)
}.

Definition with_bucket (st : State) (b : _Bucket) : State :=
  {| critical_bucket := b;
     memory_writes := memory_writes st;
     tool_calls := tool_calls st |}.

Definition with_memory_write (st : State) (mem : Py.dict) : State :=
  {| critical_bucket := critical_bucket st;
     memory_writes := memory_writes st ++ [mem];
     tool_calls := tool_calls st |}.

Definition with_tool_call (st : State) (tool : string) (args : Py.dict)
  : State :=
  {| critical_bucket := critical_bucket st;
     memory_writes := memory_writes st;
     tool_calls := tool_calls st ++ [(tool, args)] |}.

(** The JSON object of a response. *)
Record Content : Type := {
  success : bool;
  resp_request_id : string;
  resp_tool_name : string;
  result : option tool_result;
  error : option string;
  execution_time_ms : Q;
  governance_level : Py.value
}.

Inductive Response : Type :=
| HTTPException (status_code : Z) (detail : string)
| JSONResponse (status_code : Z) (content : Content)
| Unhandled (exception : string).

(** The 429 rejection. *)
Definition is_rate_limited (r : Response) : bool :=
  match r with
  | HTTPException code _ => (code =? 429)%Z
  | _ => false
  end.

(** ** The [execute] endpoint *)

(** [req.request_id or sha256(...).hexdigest()[:16]]. *)
Definition rid_of (w : World) (req : ExecuteRequest) : string :=
  match request_id req with
  | Some s => if String.eqb s "" then generated_id w (tool_name req) else s
  | None => generated_id w (tool_name req)
  end.

(** [x_mcp_key or "anonymous"]. *)
Definition requested_by (x_mcp_key : option string) : string :=
  match x_mcp_key with
  | Some k => if String.eqb k "" then "anonymous" else k
  | None => "anonymous"
  end.

(** The record handed to [write_local_memory]. *)
Definition approval_record (req : ExecuteRequest) (x_mcp_key : option string)
  : Py.dict :=
  [("type", Py.Str "tool_request");
   ("tool_name", Py.Str (tool_name req));
   ("arguments", Py.Dict (arguments req));
   ("requires_approval", Py.Bool true);
   ("approval_status", Py.Str "pending");
   ("requested_by", Py.Str (requested_by x_mcp_key))].

(** [bool(req.arguments.get("_approved", False))]. *)
Definition already_approved (req : ExecuteRequest) : bool :=
  Py.truthy (Py.get (arguments req) "_approved" (Py.Bool false)).

(** The [try ... except] around the durable-store write: the identifier
    (or [None]) and the state after. *)
Definition persist_approval (w : World) (mem : Py.dict) (st : State)
  : Py.value * State :=
  match memory w with
  | MemoryImportError => (Py.None_, st)
  | Memory write_local_memory =>
      match write_local_memory mem with
      | Some mem_id => (mem_id, with_memory_write st mem)
      | None => (Py.None_, with_memory_write st mem)
      end
  end.

Definition pending_content (rid : string) (req : ExecuteRequest) (tool : Tool)
    (mem_id : Py.value) : Content :=
  {| success := false;
     resp_request_id := rid;
     resp_tool_name := tool_name req;
     result := Some (Value (Py.Dict [("approval_required", Py.Bool true);
                                     ("memory_id", mem_id)]));
     error := Some "approval_required";
     execution_time_ms := 0%Q;
     governance_level := rate_limit_level tool |}.

Definition dry_run_content (rid : string) (req : ExecuteRequest) (tool : Tool)
  : Content :=
  {| success := true;
     resp_request_id := rid;
     resp_tool_name := tool_name req;
     result := Some (Value (Py.Dict
                 [("dry_run", Py.Bool true);
                  ("parameters_provided",
                   Py.List (map Py.Str (Py.keys (arguments req))))]));
     error := None;
     execution_time_ms := 0%Q;
     governance_level := rate_limit_level tool |}.

Definition success_content (w : World) (rid : string) (req : ExecuteRequest)
    (tool : Tool) (payload : tool_result) : Content :=
  {| success := true;
     resp_request_id := rid;
     resp_tool_name := tool_name req;
     result := Some payload;
     error := None;
     execution_time_ms := elapsed_ms w;
     governance_level := rate_limit_level tool |}.

Definition error_content (rid : string) (req : ExecuteRequest) (tool : Tool)
    (e : string) : Content :=
  {| success := false;
     resp_request_id := rid;
     resp_tool_name := tool_name req;
     result := None;
     error := Some e;
     execution_time_ms := 0%Q;
     governance_level := rate_limit_level tool |}.

(** The inner [try]: unwrap the text of a leading content item as JSON,
    and keep the raw result when that is not possible. *)
Definition payload_of (w : World) (r : tool_result) : tool_result :=
  match r with
  | Contents (Object_ _ (Some text) :: _) =>
      match json_loads w text with
      | Some v => Value v
      | None => r
      end
  | _ => r
  end.

(** The success envelope is built inside the outer [try]: when the
    payload cannot be rendered, the [TypeError] of [json.dumps] is caught
    like a failure of the provider. *)
Definition render_success (w : World) (rid : string) (req : ExecuteRequest)
    (tool : Tool) (payload : tool_result) : Response :=
  match unserializable payload with
  | None => JSONResponse 200 (success_content w rid req tool payload)
  | Some class_name =>
      JSONResponse 500 (error_content rid req tool (not_serializable class_name))
  end.

(** The outer [try]: the provider call and its envelope. *)
Definition call_provider (w : World) (rid : string) (req : ExecuteRequest)
    (tool : Tool) (st : State) : Response * State :=
  match server w with
  | ServerImportError msg => (JSONResponse 500 (error_content rid req tool msg), st)
  | ServerWithoutCallTool =>
      (JSONResponse 500 (error_content rid req tool "MCP server missing call_tool"), st)
  | Server call_tool =>
      let st' := with_tool_call st (tool_name req) (arguments req) in
      match call_tool (tool_name req) (arguments req) with
      | inl r => (render_success w rid req tool (payload_of w r), st')
      | inr e => (JSONResponse 500 (error_content rid req tool e), st')
      end
  end.

(** [execute] from the approval check on. *)
Definition approve_and_dispatch (w : World) (rid : string)
    (req : ExecuteRequest) (x_mcp_key : option string) (tool : Tool)
    (st : State) : Response * State :=
  if approval_required tool && negb (already_approved req) then
    let '(mem_id, st') := persist_approval w (approval_record req x_mcp_key) st in
    (JSONResponse 200 (pending_content rid req tool mem_id), st')
  else if dry_run req then
    (JSONResponse 200 (dry_run_content rid req tool), st)
  else call_provider w rid req tool st.

(** [bool(x_mcp_readonly)]. *)
Definition read_only_of (x_mcp_readonly : option bool) : bool :=
  match x_mcp_readonly with Some b => b | None => false end.

(** [execute(req, x_mcp_key, x_mcp_readonly)] against the registry. *)
Definition execute (cfg : Config) (REGISTRY : gmap string Tool) (w : World)
    (req : ExecuteRequest) (x_mcp_key : option string)
    (x_mcp_readonly : option bool) (st : State) : Response * State :=
  let rid := rid_of w req in
  match REGISTRY !! tool_name req with
  | None => (HTTPException 400 "Unknown tool", st)
  | Some tool =>
      if negb (_validate_key cfg x_mcp_key (read_only_of x_mcp_readonly)) then
        (HTTPException 401 "Unauthorized: X-MCP-KEY invalid or missing", st)
      else if Py.eq_str (rate_limit_level tool) "CRITICAL" then
        match can_consume (critical_bucket st) 1 (time_now w) with
        | None => (Unhandled "ZeroDivisionError", st)
        | Some (false, b) =>
            (HTTPException 429 "Critical operation rate limit exceeded",
             with_bucket st b)
        | Some (true, b) =>
            approve_and_dispatch w rid req x_mcp_key tool (with_bucket st b)
        end
      else approve_and_dispatch w rid req x_mcp_key tool st
  end.

(** [execute_named]: the tool name comes from the path, the body is the
    arguments. *)
Definition execute_named (cfg : Config) (REGISTRY : gmap string Tool)
    (w : World) (tool : string) (args : Py.dict) (dry : bool)
    (x_mcp_key : option string) (x_mcp_readonly : option bool) (st : State)
  : Response * State :=
  execute cfg REGISTRY w
    {| tool_name := tool; arguments := args; dry_run := dry;
       request_id := None |}
    x_mcp_key x_mcp_readonly st.

(** The state of a freshly imported module at clock reading [time]. *)
Definition initial_state (time : Q) : State :=
  {| critical_bucket := _critical_bucket time;
     memory_writes := [];
     tool_calls := [] |}.

(** ** The bucket in the arithmetic of the code

    [time()] returns a binary64 float, and [can_consume] computes with
    Python's numbers as they come: [tokens] is the [int] that [__init__]
    stored until a refill makes it a [float], and it is an [int] again
    when [min] picks [max_tokens].  The operations are those of IEEE 754
    binary64, rounding to nearest even, which Rocq's primitive floats
    are. *)

Module Binary64.

(** A Python number: an [int] or a [float]. *)
Inductive number : Type :=
| Int (z : Z)
| Float (f : float).

(** [float(z)].  The conversion is exact for an [int] of magnitude at
    most [2^53]; magnitudes of [2^63] and more are not covered. *)
Definition of_int (z : Z) : float :=
  if (z <? 0)%Z then PrimFloat.opp (PrimFloat.of_uint63 (Uint63.of_Z (- z)))
  else PrimFloat.of_uint63 (Uint63.of_Z z).

(** [x + f] for a [float] [f]. *)
Definition add (x : number) (f : float) : float :=
  match x with
  | Int z => PrimFloat.add (of_int z) f
  | Float g => PrimFloat.add g f
  end.

(** [min(a, f)] for an [int] [a] and a [float] [f]: [f] when [f < a],
    otherwise [a]. *)
Definition py_min (a : Z) (f : float) : number :=
  if PrimFloat.ltb f (of_int a) then Float f else Int a.

(** [x >= amt] for an [int] [amt]. *)
Definition geq (x : number) (amt : Z) : bool :=
  match x with
  | Int z => (amt <=? z)%Z
  | Float f => PrimFloat.leb (of_int amt) f
  end.

(** [x - amt] for an [int] [amt]. *)
Definition sub (x : number) (amt : Z) : number :=
  match x with
  | Int z => Int (z - amt)
  | Float f => Float (PrimFloat.sub f (of_int amt))
  end.

(** [class _Bucket]: the attributes set by [__init__]. *)
Record _Bucket : Type := mk_Bucket {
  max_tokens : Z;
  refill_seconds : Z;
  tokens : number;
  last : float
}.

(** [_Bucket.__init__(max_tokens, refill_seconds)] at clock reading [time]. *)
Definition Bucket_init (max refill : Z) (time : float) : _Bucket :=
  {| max_tokens := max; refill_seconds := refill;
     tokens := Int max; last := time |}.

(** [elapsed > 0], for [elapsed = now - self.last]. *)
Definition elapsed_positive (self : _Bucket) (now : float) : bool :=
  PrimFloat.ltb 0%float (PrimFloat.sub now (last self)).

(** The lazy refill at the head of [can_consume].  [None] stands for the
    [ZeroDivisionError] of [max_tokens / refill_seconds]. *)
Definition refill (self : _Bucket) (now : float) : option _Bucket :=
  let elapsed := PrimFloat.sub now (last self) in
  if PrimFloat.ltb 0%float elapsed then
    if (refill_seconds self =? 0)%Z then None
    else
      let rate :=
        PrimFloat.div (of_int (max_tokens self)) (of_int (refill_seconds self)) in
      Some {| max_tokens := max_tokens self;
              refill_seconds := refill_seconds self;
              tokens := py_min (max_tokens self)
                               (add (tokens self) (PrimFloat.mul elapsed rate));
              last := now |}
  else Some self.

(** The check-and-decrement at the tail of [can_consume]. *)
Definition take (self : _Bucket) (amt : Z) : bool * _Bucket :=
  if geq (tokens self) amt then
    (true, {| max_tokens := max_tokens self;
              refill_seconds := refill_seconds self;
              tokens := sub (tokens self) amt;
              last := last self |})
  else (false, self).

(** [_Bucket.can_consume(amt)] at clock reading [now]. *)
Definition can_consume (self : _Bucket) (amt : Z) (now : float)
  : option (bool * _Bucket) :=
  match refill self now with
  | None => None
  | Some self' => Some (take self' amt)
  end.

(** [_critical_bucket = _Bucket(5, 3600)], created at [time]. *)
Definition _critical_bucket (time : float) : _Bucket := Bucket_init 5 3600 time.

(** Successive [can_consume()] calls at the given clock readings. *)
Fixpoint consume_all (self : _Bucket) (times : list float)
  : option (list bool * _Bucket) :=
  match times with
  | [] => Some ([], self)
  | now :: rest =>
      match can_consume self 1 now with
      | None => None
      | Some (ok, self') =>
          match consume_all self' rest with
          | None => None
          | Some (oks, self'') => Some (ok :: oks, self'')
          end
      end
  end.

(** What the rate limit of [execute] does with a request: it lets it go
    on, or it raises an [HTTPException]. *)
Inductive gate : Type :=
| Proceeds
| Rejected (status_code : Z) (detail : string).

(** The rate limit of [execute], on the shared bucket: only a CRITICAL
    tool asks the bucket, and a refusal is the 429 rejection.  [None]
    stands for the [ZeroDivisionError] of the bucket. *)
Definition rate_limit (tool : Tool) (bucket : _Bucket) (now : float)
  : option (gate * _Bucket) :=
  if Py.eq_str (rate_limit_level tool) "CRITICAL" then
    match can_consume bucket 1 now with
    | None => None
    | Some (ok, bucket') =>
        Some (if ok then Proceeds
              else Rejected 429 "Critical operation rate limit exceeded",
              bucket')
    end
  else Some (Proceeds, bucket).

(** Successive requests for one tool at the given clock readings. *)
Fixpoint rate_limit_all (tool : Tool) (bucket : _Bucket) (times : list float)
  : option (list gate * _Bucket) :=
  match times with
  | [] => Some ([], bucket)
  | now :: rest =>
      match rate_limit tool bucket now with
      | None => None
      | Some (g, bucket') =>
          match rate_limit_all tool bucket' rest with
          | None => None
          | Some (gs, bucket'') => Some (g :: gs, bucket'')
          end
      end
  end.

(** The answer of the gate to an attempt of the bucket. *)
Definition gate_of (ok : bool) : gate :=
  if ok then Proceeds else Rejected 429 "Critical operation rate limit exceeded".

End Binary64.

(** ** A small deployment, for running the definitions *)

(** [echo]: LOW tier, one required string parameter [text]. *)
Definition echo_tool : RawTool :=
  {| raw_name := "echo";
     raw_description := "Echo the text";
     raw_inputSchema :=
       Some {| properties :=
                 Some [("text", [("type", Py.Str "string");
                                 ("description", Py.Str "what to echo")])];
               required := Some ["text"] |};
     raw_governance := Some [("level", Py.Str "LOW"); ("allowed", Py.Bool true)] |}.

(** [drop-all-data]: CRITICAL tier. *)
Definition drop_tool : RawTool :=
  {| raw_name := "drop-all-data";
     raw_description := "Drop every table";
     raw_inputSchema := None;
     raw_governance :=
       Some [("level", Py.Str "CRITICAL"); ("allowed", Py.Bool true)] |}.

(** [ping]: the provider gave no governance classification. *)
Definition ping_tool : RawTool :=
  {| raw_name := "ping";
     raw_description := "";
     raw_inputSchema := None;
     raw_governance := None |}.

(** [probe]: the provider classified it with a tier that is none of LOW,
    MEDIUM, HIGH and CRITICAL. *)
Definition probe_tool : RawTool :=
  {| raw_name := "probe";
     raw_description := "";
     raw_inputSchema := None;
     raw_governance :=
       Some [("level", Py.Str "UNKNOWN"); ("allowed", Py.Bool true)] |}.

(** [scan]: the provider left the tier null. *)
Definition scan_tool : RawTool :=
  {| raw_name := "scan";
     raw_description := "";
     raw_inputSchema := None;
     raw_governance := Some [("level", Py.None_); ("allowed", Py.Bool true)] |}.

Definition sample_registry : gmap string Tool :=
  _build_registry (Some [echo_tool; drop_tool; ping_tool]).

Definition sample_config : Config :=
  {| SAFE_MODE := true; MCP_API_KEY := "s3cret" |}.

(** A provider that echoes the [text] argument, a durable store that
    answers every write with the identifier ["mem-1"], clock reading [t]. *)
Definition sample_world (t : Q) : World :=
  {| time_now := t;
     generated_id := fun tool => "generated";
     elapsed_ms := 3%Q;
     json_loads := fun _ => None;
     server := Server (fun _ args => inl (Value (Py.get_none args "text")));
     memory := Memory (fun _ => Some (Py.Str "mem-1")) |}.

(** The same deployment with an unreachable durable store. *)
Definition degraded_world (t : Q) : World :=
  {| time_now := t;
     generated_id := fun tool => "generated";
     elapsed_ms := 3%Q;
     json_loads := fun _ => None;
     server := Server (fun _ args => inl (Value (Py.get_none args "text")));
     memory := Memory (fun _ => None) |}.


(** A call of [drop-all-data] without the approval marker. *)
Definition drop_request : ExecuteRequest :=
  {| tool_name := "drop-all-data"; arguments := []; dry_run := false;
     request_id := Some "r-1" |}.

(** A dry run of [drop-all-data]. *)
Definition dry_drop_request : ExecuteRequest :=
  {| tool_name := "drop-all-data"; arguments := []; dry_run := true;
     request_id := Some "r-1" |}.

(** A dry run of [echo] that names an argument the tool does not have. *)
Definition dry_echo_request : ExecuteRequest :=
  {| tool_name := "echo"; arguments := [("bogus", Py.Int 1)]; dry_run := true;
     request_id := Some "r-2" |}.

(** A body for [echo] that asks for background execution. *)
Definition background_body : RequestBody :=
  {| body_tool_name := "echo";
     body_arguments := Some [("text", Py.Str "hi")];
     body_dry_run := None;
     body_request_id := Some "r-7";
     body_extra := [("background", Py.Bool true)] |}.

(** A body with other top-level keys than those it came with. *)
Definition with_extra (b : RequestBody) (extra : Py.dict) : RequestBody :=
  {| body_tool_name := body_tool_name b;
     body_arguments := body_arguments b;
     body_dry_run := body_dry_run b;
     body_request_id := body_request_id b;
     body_extra := extra |}.

(** Successive requests, each with its own view of the outside world. *)
Fixpoint execute_all (cfg : Config) (REGISTRY : gmap string Tool)
    (reqs : list (World * ExecuteRequest * option string * option bool))
    (st : State) : list Response * State :=
  match reqs with
  | [] => ([], st)
  | (w, req, key, ro) :: rest =>
      let '(r, st') := execute cfg REGISTRY w req key ro st in
      let '(rs, st'') := execute_all cfg REGISTRY rest st' in
      (r :: rs, st'')
  end.

(** Six calls of the same request, one second apart, the first one a
    second after the module was imported at clock reading [0]. *)
Definition burst (req : ExecuteRequest) (x_mcp_key : option string)
  : list (World * ExecuteRequest * option string * option bool) :=
  map (fun t : Z => (sample_world (inject_Z t), req, x_mcp_key, None))
      [1; 2; 3; 4; 5; 6]%Z.

(** ** Well-formed buckets *)

(** A bucket as [__init__] makes them and [can_consume] keeps them: a
    capacity that is not negative, a window that is positive, and a token
    count between zero and the capacity. *)
Definition bucket_ok (b : _Bucket) : Prop :=
  (0 <= max_tokens b)%Z /\ (0 < refill_seconds b)%Z /\
  (0 <= tokens b)%Q /\ (tokens b <= inject_Z (max_tokens b))%Q.

(** ** The registry as a Python dictionary: in insertion order *)

(** [d[k] = v] on a dictionary with values of any type: an existing key
    keeps its position, a new key goes to the end. *)
Fixpoint dict_set {A : Type} (k : string) (v : A) (d : list (string * A))
  : list (string * A) :=
  match d with
  | [] => [(k, v)]
  | (k', v') :: d' =>
      if String.eqb k k' then (k, v) :: d' else (k', v') :: dict_set k v d'
  end.

(** [_build_registry] with the order of [REGISTRY.items()] kept. *)
Definition _build_registry_items (main_extended : option (list RawTool))
  : list (string * Tool) :=
  foldl (fun reg t => dict_set (raw_name t) (registry_entry t) reg) []
        (_load_tools_from_main main_extended).

(** ** The introspection endpoints *)

(** The answer of [health]. *)
Record Health : Type := {
  status : string;
  version : string;
  protocol_version : string;
  mcp_server_available : bool;
  firestore_available : bool;
  timestamp : string
}.

(** [health()], with [utcnow] standing for
    [datetime.utcnow().isoformat()]; [bool(REGISTRY)] is false for the
    empty dictionary only. *)
Definition health (REGISTRY : list (string * Tool)) (utcnow : string)
  : Health :=
  {| status := "healthy";
     version := "1.0";
     protocol_version := "2024-11";
     mcp_server_available := match REGISTRY with [] => false | _ => true end;
     firestore_available := false;
     timestamp := String.append utcnow "Z" |}.

(** [tools()]: [len(REGISTRY)] and [list(REGISTRY.values())]. *)
Definition tools (REGISTRY : list (string * Tool)) : nat * list Tool :=
  (length REGISTRY, map snd REGISTRY).

(** The ["post"] object of one path of the generated document. *)
Record Operation : Type := {
  summary : string;
  op_description : string;
  operationId : string;
  schema_properties : list (string * (Py.value * Py.value))
}.

(** The generated document. *)
Record OpenAPI : Type := {
  openapi_version : string;
  info_title : string;
  info_version : string;
  servers : list (option string);
  paths : list (string * Operation);
  x_mcp_attach_ready : bool
}.

(** The dictionary comprehension over a tool's parameters: name to type
    and description. *)
Definition operation_params (ps : list Param)
  : list (string * (Py.value * Py.value)) :=
  foldl (fun d p => dict_set (param_name p)
                      (param_type p, param_description p) d) [] ps.

Definition operation_of (name : string) (t : Tool) : Operation :=
  {| summary := String.append "Execute " name;
     op_description := description t;
     operationId := String.append "execute_" name;
     schema_properties := operation_params (parameters t) |}.

(** [openapi(base_url)]. *)
Definition openapi (REGISTRY : list (string * Tool)) (base_url : option string)
  : OpenAPI :=
  {| openapi_version := "3.0.0";
     info_title := "Infinity XOS MCP Adapter";
     info_version := "1.0";
     servers := [base_url];
     paths := foldl (fun ps nt =>
                       dict_set (String.append "/mcp/execute/" (fst nt))
                                (operation_of (fst nt) (snd nt)) ps)
                    [] REGISTRY;
     x_mcp_attach_ready := true |}.

(** ** The shape of an envelope *)

(** What the JSON envelopes of [execute] have in common: the request id,
    the tool name and the tier of the registered tool, and one of three
    shapes: a success (200), the pending answer (200, not a success,
    error ["approval_required"]), or a failure of the provider (500). *)
Definition envelope_ok (rid : string) (req : ExecuteRequest) (tool : Tool)
    (code : Z) (body : Content) : Prop :=
  resp_request_id body = rid /\
  resp_tool_name body = tool_name req /\
  governance_level body = rate_limit_level tool /\
  ((code = 200%Z /\ success body = true /\ error body = None /\
    is_Some (result body)) \/
   (code = 200%Z /\ success body = false /\
    error body = Some "approval_required" /\
    approval_required tool = true /\ already_approved req = false) \/
   (code = 500%Z /\ success body = false /\ result body = None /\
    is_Some (error body) /\ dry_run req = false)).

(** ** The single-file variant of the adapter

    The same file holds an earlier [execute] (with its own
    [ExecuteRequest], [_validate_key], [_invoke_tool] and
    [_persist_approval_request]) that answers dry runs first and knows
    background execution.  It works on the same registry entries. *)

Module SingleFile.

(** [class ExecuteRequest(BaseModel)] of this variant; [_approved] is
    what [getattr(req, "_approved", False)] finds. *)
Record ExecuteRequest : Type := {
  tool_name : string;
  arguments : Py.dict;
  dry_run : bool;
  _approved : option bool;
  background : option bool;
  request_id : option string
}.

(** Truthiness of an [Optional[bool]]. *)
Definition flag (o : option bool) : bool :=
  match o with Some b => b | None => false end.

(** [s or dflt] for an optional string. *)
Definition str_or (s : option string) (dflt : string) : string :=
  match s with
  | Some "" | None => dflt
  | Some x => x
  end.

(** [x_mcp_key or os.environ.get("MCP_API_KEY")]. *)
Definition key_or_environ (x_mcp_key environ : option string) : option string :=
  match x_mcp_key with
  | Some "" | None => environ
  | Some k => Some k
  end.

(** [not key or key != MCP_API_KEY]. *)
Definition key_rejected (cfg : Config) (key : option string) : bool :=
  match key with
  | Some "" | None => true
  | Some k => negb (String.eqb k (MCP_API_KEY cfg))
  end.

(** [_validate_key(x_mcp_key, read_only)] with the environment's
    [MCP_API_KEY] at the time of the call: a boolean, or the
    [HTTPException] it raises. *)
Definition _validate_key (cfg : Config) (environ : option string)
    (x_mcp_key : option string) (read_only : bool) : bool + Z * string :=
  if negb (SAFE_MODE cfg) then inl true
  else if key_rejected cfg (key_or_environ x_mcp_key environ) then
    if read_only then inl false
    else inr (401%Z, "Missing or invalid X-MCP-KEY header")
  else inl true.

(** [from memory import helpers]: the import may fail, the module may
    lack [write_local_memory], and the one-argument call may raise a
    [TypeError], upon which the two-argument call is tried. *)
Inductive write_outcome : Type := Written | RaisedTypeError | Raised.

Inductive memory_module : Type :=
| MemoryImportError
| MemoryWithoutWriter
| Memory (write_local_memory : Py.dict -> write_outcome).

(** What one request reads from outside. *)
Record World : Type := {
  environ_MCP_API_KEY : option string;
  server : mcp_server;
  memory : memory_module;
  session_hash : string -> Py.dict -> string;
  utcnow : string;
  elapsed_ms : Q
}.

(** The calls made so far to the durable store (with the extra first
    argument of the fallback call, if any), the background tasks
    created, and the calls made to the provider. *)
Record State : Type := {
  memory_calls : list (option string * Py.dict);
  scheduled : list (string * Py.dict);
  tool_calls : list (string * Py.dict)
}.

(** The document [_persist_approval_request] builds. *)
Definition approval_doc (w : World) (tool : string) (args metadata : Py.dict)
  : Py.dict :=
  [("session_hash", Py.Str (session_hash w tool args));
   ("type", Py.Str "approval_request");
   ("content", Py.Dict [("tool_name", Py.Str tool);
                        ("arguments", Py.Dict args);
                        ("metadata", Py.Dict metadata)]);
   ("confidence", Py.Float 1);
   ("sources", Py.List []);
   ("prompt_hash", Py.None_);
   ("created_at", Py.Str (String.append (utcnow w) "Z"))].

(** [_persist_approval_request]: best effort, every exception swallowed. *)
Definition _persist_approval_request (w : World) (tool : string)
    (args metadata : Py.dict) (st : State) : State :=
  let doc := approval_doc w tool args metadata in
  match memory w with
  | MemoryImportError | MemoryWithoutWriter => st
  | Memory write_local_memory =>
      let first := (memory_calls st ++ [(None, doc)])%list in
      {| memory_calls :=
           match write_local_memory doc with
           | RaisedTypeError =>
               (first ++ [(Some (session_hash w tool args), doc)])%list
           | _ => first
           end;
         scheduled := scheduled st;
         tool_calls := tool_calls st |}
  end.

(** [_invoke_tool]: the result, or the text of the exception it lets
    through. *)
Definition _invoke_tool (w : World) (tool : string) (args : Py.dict)
    (st : State) : (tool_result + string) * State :=
  match server w with
  | ServerImportError msg => (inr msg, st)
  | ServerWithoutCallTool =>
      (inr "server.call_tool is not available in main_extended", st)
  | Server call_tool =>
      (call_tool tool args,
       {| memory_calls := memory_calls st;
          scheduled := scheduled st;
          tool_calls := (tool_calls st ++ [(tool, args)])%list |})
  end.

(** The ["result"] of an envelope: the description given by a dry run,
    or what the provider returned. *)
Inductive Result : Type :=
| Described (parameters : list Param) (governance_level : Py.value)
            (approval_required : bool)
| Returned (r : tool_result).

(** The JSON object of a response; the keys an answer does not have are
    [None]. *)
Record Content : Type := {
  success : bool;
  resp_request_id : string;
  resp_tool_name : string;
  result : option Result;
  error : option string;
  execution_time_ms : option Q;
  governance_level : option Py.value
}.

Inductive Response : Type :=
| HTTPException (status_code : Z) (detail : string)
| JSONResponse (status_code : Z) (content : Content).

(** [execute] from the dry-run check on. *)
Definition dispatch (w : World) (req : ExecuteRequest) (tool : Tool)
    (st : State) : Response * State :=
  if dry_run req then
    (JSONResponse 200
       {| success := true;
          resp_request_id := str_or (request_id req) "dryrun";
          resp_tool_name := tool_name req;
          result := Some (Described (parameters tool) (rate_limit_level tool)
                            (approval_required tool));
          error := None;
          execution_time_ms := None;
          governance_level := None |}, st)
  else if approval_required tool && negb (flag (_approved req)) then
    (JSONResponse 202
       {| success := false;
          resp_request_id := str_or (request_id req) "approval_required";
          resp_tool_name := tool_name req;
          result := None;
          error := Some "approval_required";
          execution_time_ms := None;
          governance_level := Some (rate_limit_level tool) |},
     _persist_approval_request w (tool_name req) (arguments req)
       [("governance_level", rate_limit_level tool)] st)
  else if flag (background req) then
    (JSONResponse 202
       {| success := true;
          resp_request_id := str_or (request_id req) "background";
          resp_tool_name := tool_name req;
          result := None;
          error := None;
          execution_time_ms := None;
          governance_level := None |},
     {| memory_calls := memory_calls st;
        scheduled := (scheduled st ++ [(tool_name req, arguments req)])%list;
        tool_calls := tool_calls st |})
  else
    let failed (e : string) :=
      JSONResponse 500
        {| success := false;
           resp_request_id := str_or (request_id req) "error";
           resp_tool_name := tool_name req;
           result := None;
           error := Some e;
           execution_time_ms := Some (elapsed_ms w);
           governance_level := Some (rate_limit_level tool) |} in
    match _invoke_tool w (tool_name req) (arguments req) st with
    | (inl r, st') =>
        match unserializable r with
        | None =>
            (JSONResponse 200
               {| success := true;
                  resp_request_id := str_or (request_id req) "ok";
                  resp_tool_name := tool_name req;
                  result := Some (Returned r);
                  error := None;
                  execution_time_ms := Some (elapsed_ms w);
                  governance_level := Some (rate_limit_level tool) |}, st')
        | Some class_name => (failed (not_serializable class_name), st')
        end
    | (inr e, st') => (failed e, st')
    end.

(** [execute(req, x_mcp_key, x_mcp_readonly)] of this variant. *)
Definition execute (cfg : Config) (REGISTRY : gmap string Tool) (w : World)
    (req : ExecuteRequest) (x_mcp_key : option string)
    (x_mcp_readonly : option bool) (st : State) : Response * State :=
  match REGISTRY !! tool_name req with
  | None =>
      (HTTPException 404 (String.append "tool not found: " (tool_name req)), st)
  | Some tool =>
      match _validate_key cfg (environ_MCP_API_KEY w) x_mcp_key
              (read_only_of x_mcp_readonly) with
      | inr (code, detail) =>
          if negb (read_only_of x_mcp_readonly)
          then (HTTPException code detail, st)
          else dispatch w req tool st
      | inl _ => dispatch w req tool st
      end
  end.

End SingleFile.

(** A deployment of the single-file variant whose environment holds the
    configured key, with a provider that echoes the [text] argument. *)
Definition single_file_world : SingleFile.World :=
  {| SingleFile.environ_MCP_API_KEY := Some "s3cret";
     SingleFile.server :=
       Server (fun _ args => inl (Value (Py.get_none args "text")));
     SingleFile.memory := SingleFile.Memory (fun _ => SingleFile.Written);
     SingleFile.session_hash := fun _ _ => "hash";
     SingleFile.utcnow := "2024-01-01T00:00:00";
     SingleFile.elapsed_ms := 3%Q |}.

Definition single_file_state : SingleFile.State :=
  {| SingleFile.memory_calls := [];
     SingleFile.scheduled := [];
     SingleFile.tool_calls := [] |}.

(** A request of the single-file variant for [tool]. *)
Definition single_file_request (tool : string) (dry bg : bool)
  : SingleFile.ExecuteRequest :=
  {| SingleFile.tool_name := tool;
     SingleFile.arguments := [("text", Py.Str "hi")];
     SingleFile.dry_run := dry;
     SingleFile._approved := None;
     SingleFile.background := Some bg;
     SingleFile.request_id := None |}.

(** ** Facts about Python values *)


Lemma Py_eq_str_true (v : Py.value) (s : string) :
  Py.eq_str v s = true <-> v = Py.Str s.
Proof.
  destruct v; simpl; try (split; [discriminate | intros H; discriminate H]).
  rewrite String.eqb_eq. split; [intros -> | intros [= ->]]; reflexivity.
Qed.

(** ** Facts about the bucket *)

Local Open Scope list_scope.
Local Open Scope Q_scope.

Section BucketFacts.

Lemma Qlt_bool_iff (x y : Q) : Qlt_bool x y = true <-> x < y.
Proof.
  unfold Qlt_bool. rewrite negb_true_iff, <- not_true_iff_false, Qle_bool_iff.
  split; [apply Qnot_le_lt | apply Qlt_not_le].
Qed.

Lemma Qlt_bool_false_iff (x y : Q) : Qlt_bool x y = false <-> y <= x.
Proof.
  unfold Qlt_bool. rewrite negb_false_iff. apply Qle_bool_iff.
Qed.

Lemma py_min_spec (a b : Q) : py_min a b == Qmin a b.
Proof.
  unfold py_min. destruct (Qlt_bool b a) eqn:E.
  - apply Qlt_bool_iff in E. symmetry. apply Q.min_r. lra.
  - apply Qlt_bool_false_iff in E. symmetry. apply Q.min_l. exact E.
Qed.

(** No time has passed since the last refill: the bucket is left as it is. *)
Lemma refill_no_elapsed (b : _Bucket) (now : Q) :
  now <= last b -> refill b now = Some b.
Proof.
  intros H. unfold refill.
  replace (Qlt_bool 0 (now - last b)) with false; [reflexivity |].
  symmetry. apply Qlt_bool_false_iff. lra.
Qed.

End BucketFacts.

(** ** The registry builder *)

Section Registry.

Local Close Scope Q_scope.

(** The approval flag of an entry is a function of its tier. *)
Lemma registry_entry_approval (t : RawTool) :
  approval_required (registry_entry t) = true <->
  rate_limit_level (registry_entry t) = Py.Str "CRITICAL".
Proof.
  unfold registry_entry, Py.get_none, Py.get. simpl.
  destruct (Py.lookup "level" (or_else (raw_governance t) default_governance))
    as [v |].
  - apply Py_eq_str_true.
  - split; intros H; discriminate H.
Qed.

(** Without a classification the entry gets the MEDIUM tier. *)
Lemma registry_entry_default (t : RawTool) :
  governance_missing t = true ->
  rate_limit_level (registry_entry t) = Py.Str "MEDIUM".
Proof.
  unfold governance_missing, registry_entry, Py.get.
  destruct (raw_governance t) as [[| kv d] |]; cbn [or_else rate_limit_level];
    try reflexivity.
  destruct (Py.lookup "level" (kv :: d)); intros H;
    [discriminate H | reflexivity].
Qed.

(** A level that is present is copied, whatever it is. *)
Lemma registry_entry_level (t : RawTool) (d : Py.dict) (v : Py.value) :
  raw_governance t = Some d -> Py.lookup "level" d = Some v ->
  governance_missing t = false /\ rate_limit_level (registry_entry t) = v.
Proof.
  intros Hg Hl. unfold governance_missing, registry_entry, Py.get.
  rewrite Hg. destruct d as [| kv d]; [discriminate Hl |].
  cbn [or_else rate_limit_level]. rewrite Hl. split; reflexivity.
Qed.

(** Every entry of a registry grown by the builder's loop is either an
    entry of the registry the loop started from or the entry of one of
    the descriptors, stored under that descriptor's name. *)
Lemma build_loop_entries (tools : list RawTool) :
  forall (reg : gmap string Tool) (n : string) (e : Tool),
    foldl (fun reg t => <[raw_name t := registry_entry t]> reg) reg tools !! n
      = Some e ->
    reg !! n = Some e \/
    exists t, In t tools /\ raw_name t = n /\ e = registry_entry t.
Proof.
  induction tools as [| t tools IH]; intros reg n e H; simpl in H.
  - left. exact H.
  - destruct (IH _ _ _ H) as [Hreg | (t' & Hin & Hn & He)].
    + apply lookup_insert_Some in Hreg as [[Hn He] | [_ Hreg]].
      * right. exists t. split; [left; reflexivity | split; congruence].
      * left. exact Hreg.
    + right. exists t'. split; [right; exact Hin | split; assumption].
Qed.

End Registry.

(** C9, as stated, fails for a classification that is present but
    unknown: the builder only falls back to MEDIUM when the descriptor
    has no governance entry (or an empty one) or the entry has no
    ["level"] key.  A tier it does not recognise and a null tier are
    copied into the registry as they are, and neither is MEDIUM. *)
Lemma C9_unknown_classification_is_copied :
  rate_limit_level <$> (_build_registry (Some [probe_tool; scan_tool]) !! "probe")
    = Some (Py.Str "UNKNOWN") /\
  rate_limit_level <$> (_build_registry (Some [probe_tool; scan_tool]) !! "scan")
    = Some Py.None_ /\
  approval_required <$> (_build_registry (Some [probe_tool; scan_tool]) !! "probe")
    = Some false /\
  approval_required <$> (_build_registry (Some [probe_tool; scan_tool]) !! "scan")
    = Some false /\
  Py.Str "UNKNOWN" <> Py.Str "MEDIUM" /\ Py.None_ <> Py.Str "MEDIUM".
Proof.
  repeat split; try (vm_compute; reflexivity); intros H; discriminate H.
Qed.

(** C9.  Every entry of the registry is the entry built from one of the
    provider's descriptors, and its approval flag is set exactly when its
    tier is CRITICAL.  When that descriptor carries no governance
    classification (no governance entry, an empty one, or one without a
    level) the tier is MEDIUM, so neither LOW nor CRITICAL, and no
    approval is required.  When it carries a level, whatever its value,
    that value is the tier. *)
Theorem C9_registry_governance (main_extended : option (list RawTool))
    (n : string) (e : Tool) :
  _build_registry main_extended !! n = Some e ->
  (approval_required e = true <-> rate_limit_level e = Py.Str "CRITICAL") /\
  exists t : RawTool,
    In t (_load_tools_from_main main_extended) /\
    raw_name t = n /\ e = registry_entry t /\
    (governance_missing t = true ->
     rate_limit_level e = Py.Str "MEDIUM" /\
     rate_limit_level e <> Py.Str "LOW" /\
     approval_required e = false) /\
    (forall (d : Py.dict) (v : Py.value),
       raw_governance t = Some d -> Py.lookup "level" d = Some v ->
       governance_missing t = false /\ rate_limit_level e = v).
Proof.
  intros H. unfold _build_registry in H.
  apply build_loop_entries in H as [H | (t & Hin & Hn & ->)].
  - rewrite lookup_empty in H. discriminate.
  - split; [apply registry_entry_approval |].
    exists t. repeat split; try assumption.
    + apply registry_entry_default. assumption.
    + rewrite registry_entry_default by assumption. discriminate.
    + destruct (approval_required (registry_entry t)) eqn:E; [| reflexivity].
      apply registry_entry_approval in E.
      rewrite registry_entry_default in E by assumption. discriminate.
    + apply (registry_entry_level t d v); assumption.
    + apply (registry_entry_level t d v); assumption.
Qed.

(** The unclassified [ping] tool of the sample deployment is registered
    under the MEDIUM tier. *)
Lemma C9_registry_governance_witness :
  (approval_required (registry_entry ping_tool) = true <->
   rate_limit_level (registry_entry ping_tool) = Py.Str "CRITICAL") /\
  exists t : RawTool,
    In t [echo_tool; drop_tool; ping_tool] /\
    raw_name t = "ping" /\ registry_entry ping_tool = registry_entry t /\
    (governance_missing t = true ->
     rate_limit_level (registry_entry ping_tool) = Py.Str "MEDIUM" /\
     rate_limit_level (registry_entry ping_tool) <> Py.Str "LOW" /\
     approval_required (registry_entry ping_tool) = false) /\
    (forall (d : Py.dict) (v : Py.value),
       raw_governance t = Some d -> Py.lookup "level" d = Some v ->
       governance_missing t = false /\
       rate_limit_level (registry_entry ping_tool) = v).
Proof.
  apply (C9_registry_governance (Some [echo_tool; drop_tool; ping_tool]) "ping").
  vm_compute. reflexivity.
Defined.

(** ** The steps of [execute] *)

Section ExecuteSteps.

Local Close Scope Q_scope.

Context (cfg : Config) (REGISTRY : gmap string Tool) (w : World).
Context (req : ExecuteRequest) (x_mcp_key : option string).
Context (x_mcp_readonly : option bool) (st : State).

Lemma execute_unknown_tool :
  REGISTRY !! tool_name req = None ->
  execute cfg REGISTRY w req x_mcp_key x_mcp_readonly st =
    (HTTPException 400 "Unknown tool", st).
Proof. intros H. unfold execute. rewrite H. reflexivity. Qed.

Lemma execute_unauthorized (tool : Tool) :
  REGISTRY !! tool_name req = Some tool ->
  _validate_key cfg x_mcp_key (read_only_of x_mcp_readonly) = false ->
  execute cfg REGISTRY w req x_mcp_key x_mcp_readonly st =
    (HTTPException 401 "Unauthorized: X-MCP-KEY invalid or missing", st).
Proof. intros H Hk. unfold execute. rewrite H, Hk. reflexivity. Qed.

(** Past the lookup and the key check: the rate limiter, then the rest. *)
Lemma execute_authorized (tool : Tool) :
  REGISTRY !! tool_name req = Some tool ->
  _validate_key cfg x_mcp_key (read_only_of x_mcp_readonly) = true ->
  execute cfg REGISTRY w req x_mcp_key x_mcp_readonly st =
    if Py.eq_str (rate_limit_level tool) "CRITICAL" then
      match can_consume (critical_bucket st) 1 (time_now w) with
      | None => (Unhandled "ZeroDivisionError", st)
      | Some (false, b) =>
          (HTTPException 429 "Critical operation rate limit exceeded",
           with_bucket st b)
      | Some (true, b) =>
          approve_and_dispatch w (rid_of w req) req x_mcp_key tool
            (with_bucket st b)
      end
    else approve_and_dispatch w (rid_of w req) req x_mcp_key tool st.
Proof. intros H Hk. unfold execute. rewrite H, Hk. reflexivity. Qed.

End ExecuteSteps.

(** ** The key check *)

Lemma _validate_key_spec (cfg : Config) (key : option string) (ro : bool) :
  _validate_key cfg key ro = true <->
  SAFE_MODE cfg = false \/ key = Some (MCP_API_KEY cfg) \/ ro = true.
Proof.
  unfold _validate_key, key_matches.
  destruct (SAFE_MODE cfg); [| split; [left; reflexivity | reflexivity]].
  rewrite orb_true_iff. split.
  - intros [H | H]; [| right; right; exact H].
    destruct key as [k |]; [| discriminate].
    apply String.eqb_eq in H. subst. right. left. reflexivity.
  - intros [H | [-> | H]]; [discriminate | | right; exact H].
    left. apply String.eqb_refl.
Qed.

(** C5, as stated, fails: with enforcement on, no key and no read-only
    declaration, a request for a name that is not registered is rejected
    as an unknown tool (400), not as unauthorized. *)
Lemma C5_unknown_tool_is_not_unauthorized :
  ~ (forall (cfg : Config) (REGISTRY : gmap string Tool) (w : World)
            (req : ExecuteRequest) (key : option string) (ro : option bool)
            (st : State),
        _validate_key cfg key (read_only_of ro) = false ->
        exists detail : string,
          fst (execute cfg REGISTRY w req key ro st) = HTTPException 401 detail).
Proof.
  intros H.
  destruct (H sample_config sample_registry (sample_world 0)
              {| tool_name := "no-such-tool"; arguments := [];
                 dry_run := false; request_id := None |}
              None None (initial_state 0) eq_refl) as [detail Hd].
  vm_compute in Hd. discriminate Hd.
Qed.

(** C5, amended.  The key check passes exactly when enforcement is off,
    or the key equals the configured secret, or the request declares
    itself read-only.  A request failing it is rejected and leaves the
    state as it was (no token taken, no approval record written, no tool
    called); the rejection is the unauthorized one when the tool is
    registered, and the unknown-tool one otherwise. *)
Theorem C5_auth_gate (cfg : Config) (REGISTRY : gmap string Tool) (w : World)
    (req : ExecuteRequest) (key : option string) (ro : option bool)
    (st : State) :
  (_validate_key cfg key (read_only_of ro) = true <->
   SAFE_MODE cfg = false \/ key = Some (MCP_API_KEY cfg) \/
   read_only_of ro = true) /\
  (_validate_key cfg key (read_only_of ro) = false ->
   snd (execute cfg REGISTRY w req key ro st) = st /\
   (is_Some (REGISTRY !! tool_name req) ->
    fst (execute cfg REGISTRY w req key ro st) =
      HTTPException 401 "Unauthorized: X-MCP-KEY invalid or missing") /\
   (REGISTRY !! tool_name req = None ->
    fst (execute cfg REGISTRY w req key ro st) =
      HTTPException 400 "Unknown tool")).
Proof.
  split; [apply _validate_key_spec |].
  intros Hk. destruct (REGISTRY !! tool_name req) as [tool |] eqn:Hreg.
  - rewrite (execute_unauthorized _ _ _ _ _ _ _ tool Hreg Hk).
    repeat split; [discriminate].
  - rewrite (execute_unknown_tool _ _ _ _ _ _ _ Hreg).
    repeat split. intros [? [=]].
Qed.

(** A wrong key on the registered [echo] tool of the sample deployment. *)
Lemma C5_auth_gate_witness :
  snd (execute sample_config sample_registry (sample_world 0)
         {| tool_name := "echo"; arguments := [("text", Py.Str "hi")];
            dry_run := false; request_id := None |}
         (Some "guess") None (initial_state 0)) = initial_state 0 /\
  fst (execute sample_config sample_registry (sample_world 0)
         {| tool_name := "echo"; arguments := [("text", Py.Str "hi")];
            dry_run := false; request_id := None |}
         (Some "guess") None (initial_state 0)) =
    HTTPException 401 "Unauthorized: X-MCP-KEY invalid or missing".
Proof.
  destruct (proj2 (C5_auth_gate sample_config sample_registry (sample_world 0)
              {| tool_name := "echo"; arguments := [("text", Py.Str "hi")];
                 dry_run := false; request_id := None |}
              (Some "guess") None (initial_state 0)) eq_refl)
    as (Hst & Hreg & _).
  split; [exact Hst |]. apply Hreg. vm_compute. eexists. reflexivity.
Defined.

(** ** The order of the lookup and the key check *)

(** C8, as stated, fails: the same unauthenticated caller is answered
    401 for the registered [echo] and 400 for a name that is not
    registered, so the answer tells whether the tool exists. *)
Lemma C8_unauthenticated_answer_depends_on_registry :
  _validate_key sample_config None (read_only_of None) = false /\
  sample_registry !! "no-such-tool" = None /\
  fst (execute sample_config sample_registry (sample_world 0)
         {| tool_name := "no-such-tool"; arguments := []; dry_run := false;
            request_id := None |}
         None None (initial_state 0)) =
    HTTPException 400 "Unknown tool" /\
  fst (execute sample_config sample_registry (sample_world 0)
         {| tool_name := "echo"; arguments := []; dry_run := false;
            request_id := None |}
         None None (initial_state 0)) =
    HTTPException 401 "Unauthorized: X-MCP-KEY invalid or missing".
Proof. vm_compute. repeat split. Qed.

(** C8, amended.  The registry lookup comes before the key check: a
    request naming a tool that is not registered is rejected as an
    unknown tool whatever its credentials, and a request failing the key
    check is rejected as unauthorized exactly when its tool is
    registered.  Neither rejection changes the state. *)
Theorem C8_lookup_before_auth (cfg : Config) (REGISTRY : gmap string Tool)
    (w : World) (req : ExecuteRequest) (key : option string)
    (ro : option bool) (st : State) :
  (REGISTRY !! tool_name req = None ->
   execute cfg REGISTRY w req key ro st =
     (HTTPException 400 "Unknown tool", st)) /\
  (_validate_key cfg key (read_only_of ro) = false ->
   (is_Some (REGISTRY !! tool_name req) <->
    execute cfg REGISTRY w req key ro st =
      (HTTPException 401 "Unauthorized: X-MCP-KEY invalid or missing", st))).
Proof.
  split; [apply execute_unknown_tool |].
  intros Hk. split.
  - intros [tool Hreg]. exact (execute_unauthorized _ _ _ _ _ _ _ tool Hreg Hk).
  - intros H. destruct (REGISTRY !! tool_name req) eqn:Hreg; [eauto |].
    rewrite (execute_unknown_tool _ _ _ _ _ _ _ Hreg) in H. discriminate H.
Qed.

(** The two rejections on the sample deployment, from one caller without
    credentials. *)
Lemma C8_lookup_before_auth_witness :
  execute sample_config sample_registry (sample_world 0)
    {| tool_name := "no-such-tool"; arguments := []; dry_run := false;
       request_id := None |} None None (initial_state 0) =
    (HTTPException 400 "Unknown tool", initial_state 0) /\
  execute sample_config sample_registry (sample_world 0)
    {| tool_name := "drop-all-data"; arguments := []; dry_run := false;
       request_id := None |} None None (initial_state 0) =
    (HTTPException 401 "Unauthorized: X-MCP-KEY invalid or missing",
     initial_state 0).
Proof.
  split.
  - apply (proj1 (C8_lookup_before_auth sample_config sample_registry
                    (sample_world 0) _ None None (initial_state 0))).
    vm_compute. reflexivity.
  - apply (proj2 (C8_lookup_before_auth sample_config sample_registry
                    (sample_world 0) _ None None (initial_state 0)) eq_refl).
    vm_compute. eexists. reflexivity.
Defined.

(** ** Approval and dispatch *)

Section Dispatch.

Local Close Scope Q_scope.

Lemma with_bucket_same (st : State) : with_bucket st (critical_bucket st) = st.
Proof. destruct st. reflexivity. Qed.

Lemma can_consume_params (b b' : _Bucket) (amt : Z) (now : Q) (ok : bool) :
  can_consume b amt now = Some (ok, b') ->
  max_tokens b' = max_tokens b /\ refill_seconds b' = refill_seconds b.
Proof.
  unfold can_consume, refill, take.
  destruct (Qlt_bool 0 (now - last b)).
  - destruct (refill_seconds b =? 0)%Z; [discriminate |].
    match goal with |- context [Qle_bool ?x ?y] => destruct (Qle_bool x y) end;
      intros [= <- <-]; split; reflexivity.
  - destruct (Qle_bool (inject_Z amt) (tokens b));
      intros [= <- <-]; split; reflexivity.
Qed.

Lemma can_consume_total (b : _Bucket) (amt : Z) (now : Q) :
  refill_seconds b <> 0%Z -> is_Some (can_consume b amt now).
Proof.
  intros H. unfold can_consume, refill.
  destruct (Qlt_bool 0 (now - last b)); [| eauto].
  destruct (Z.eqb_spec (refill_seconds b) 0); [contradiction | eauto].
Qed.


Context (w : World) (rid : string) (req : ExecuteRequest).
Context (x_mcp_key : option string) (tool : Tool) (st : State).

Lemma persist_approval_state (mem : Py.dict) :
  critical_bucket (snd (persist_approval w mem st)) = critical_bucket st /\
  tool_calls (snd (persist_approval w mem st)) = tool_calls st.
Proof.
  unfold persist_approval. destruct (memory w) as [| write]; [split; reflexivity |].
  destruct (write mem); split; reflexivity.
Qed.

(** Phase 1: the call is recorded, answered as pending, and not executed. *)
Lemma dispatch_pending :
  approval_required tool = true -> already_approved req = false ->
  approve_and_dispatch w rid req x_mcp_key tool st =
    (JSONResponse 200
       (pending_content rid req tool
          (fst (persist_approval w (approval_record req x_mcp_key) st))),
     snd (persist_approval w (approval_record req x_mcp_key) st)).
Proof.
  intros Ha Hn. unfold approve_and_dispatch. rewrite Ha, Hn. simpl.
  destruct (persist_approval w (approval_record req x_mcp_key) st).
  reflexivity.
Qed.

(** Past the approval check: the dry-run answer or the provider call. *)
Lemma dispatch_cleared :
  approval_required tool = false \/ already_approved req = true ->
  approve_and_dispatch w rid req x_mcp_key tool st =
    if dry_run req then (JSONResponse 200 (dry_run_content rid req tool), st)
    else call_provider w rid req tool st.
Proof.
  intros H. unfold approve_and_dispatch.
  replace (approval_required tool && negb (already_approved req)) with false;
    [reflexivity |].
  destruct H as [-> | ->]; [reflexivity | symmetry; apply andb_false_r].
Qed.

(** A reachable provider is called once, with the request's arguments. *)
Lemma call_provider_once (call_tool : string -> Py.dict -> tool_result + string) :
  server w = Server call_tool ->
  snd (call_provider w rid req tool st) =
    with_tool_call st (tool_name req) (arguments req).
Proof.
  intros H. unfold call_provider. rewrite H.
  destruct (call_tool (tool_name req) (arguments req)); reflexivity.
Qed.

Lemma call_provider_not_rate_limited :
  is_rate_limited (fst (call_provider w rid req tool st)) = false.
Proof.
  unfold call_provider. destruct (server w) as [msg | | call_tool];
    try reflexivity.
  destruct (call_tool (tool_name req) (arguments req)) as [r | e];
    [| reflexivity].
  simpl. unfold render_success.
  destruct (unserializable (payload_of w r)); reflexivity.
Qed.

Lemma dispatch_not_rate_limited :
  is_rate_limited (fst (approve_and_dispatch w rid req x_mcp_key tool st)) = false.
Proof.
  unfold approve_and_dispatch.
  destruct (approval_required tool && negb (already_approved req)).
  - destruct (persist_approval w (approval_record req x_mcp_key) st).
    reflexivity.
  - destruct (dry_run req); [reflexivity | apply call_provider_not_rate_limited].
Qed.

End Dispatch.

Section RateGate.

Local Close Scope Q_scope.

Context (cfg : Config) (REGISTRY : gmap string Tool) (w : World).
Context (req : ExecuteRequest) (x_mcp_key : option string).
Context (x_mcp_readonly : option bool) (st : State) (tool : Tool).
Hypothesis registered : REGISTRY !! tool_name req = Some tool.
Hypothesis authorized :
  _validate_key cfg x_mcp_key (read_only_of x_mcp_readonly) = true.
Hypothesis refill_window : refill_seconds (critical_bucket st) <> 0%Z.

(** A registered, authorized request is either refused by the bucket,
    which is the only thing that changes, or handed to the approval
    check with the bucket as the rate limiter left it. *)
Lemma execute_rate_gate :
  exists b : _Bucket,
    refill_seconds b = refill_seconds (critical_bucket st) /\
    (execute cfg REGISTRY w req x_mcp_key x_mcp_readonly st =
       (HTTPException 429 "Critical operation rate limit exceeded",
        with_bucket st b) \/
     execute cfg REGISTRY w req x_mcp_key x_mcp_readonly st =
       approve_and_dispatch w (rid_of w req) req x_mcp_key tool
         (with_bucket st b)).
Proof.
  rewrite (execute_authorized _ _ _ _ _ _ _ tool registered authorized).
  destruct (Py.eq_str (rate_limit_level tool) "CRITICAL").
  - destruct (can_consume_total (critical_bucket st) 1 (time_now w) refill_window)
      as [[ok b] Hc].
    rewrite Hc. exists b.
    split; [apply (can_consume_params _ _ _ _ _ Hc) |].
    destruct ok; [right | left]; reflexivity.
  - exists (critical_bucket st). split; [reflexivity |].
    right. rewrite with_bucket_same. reflexivity.
Qed.

End RateGate.

(** ** The rate limit on critical tools *)

Section Binary64Facts.

Import Binary64.

Local Close Scope Q_scope.

(** No time has passed for the bucket: the attempt is the check and
    decrement alone. *)
Lemma can_consume_no_elapsed (b : Binary64._Bucket) (amt : Z) (now : float) :
  elapsed_positive b now = false ->
  Binary64.can_consume b amt now = Some (Binary64.take b amt).
Proof.
  unfold elapsed_positive, Binary64.can_consume, Binary64.refill.
  intros ->. reflexivity.
Qed.

(** Time has passed: the refill formula, and the clock of the bucket
    moves to the reading of the attempt. *)
Lemma can_consume_elapsed (b : Binary64._Bucket) (amt : Z) (now : float) :
  elapsed_positive b now = true -> Binary64.refill_seconds b <> 0%Z ->
  Binary64.can_consume b amt now =
    Some (Binary64.take
            {| max_tokens := max_tokens b;
               refill_seconds := refill_seconds b;
               tokens :=
                 Binary64.py_min (max_tokens b)
                   (add (tokens b)
                      (PrimFloat.mul (PrimFloat.sub now (last b))
                         (PrimFloat.div (of_int (max_tokens b))
                                        (of_int (refill_seconds b)))));
               last := now |} amt).
Proof.
  unfold elapsed_positive, Binary64.can_consume, Binary64.refill.
  intros -> Hw. apply Z.eqb_neq in Hw. rewrite Hw. reflexivity.
Qed.

(** Attempts that see no elapsed time are granted one after the other
    as long as whole tokens are left. *)
Lemma consume_all_no_elapsed (times : list float) :
  forall (b : Binary64._Bucket) (z : Z),
    tokens b = Int z ->
    (Z.of_nat (length times) <= z)%Z ->
    Forall (fun now => elapsed_positive b now = false) times ->
    Binary64.consume_all b times =
      Some (repeat true (length times),
            {| max_tokens := max_tokens b;
               refill_seconds := refill_seconds b;
               tokens := Int (z - Z.of_nat (length times));
               last := last b |}).
Proof.
  induction times as [| now times IH]; intros b z Htok Hlen Hall.
  - cbn [Binary64.consume_all length repeat].
    replace (z - Z.of_nat 0)%Z with z by (cbn [Z.of_nat]; lia).
    destruct b as [m r k l]. cbn in Htok |- *. subst k. reflexivity.
  - apply Forall_cons in Hall as [Hnow Hall].
    cbn [Binary64.consume_all length repeat].
    rewrite (can_consume_no_elapsed b 1 now Hnow).
    unfold Binary64.take. rewrite Htok. cbn [geq Binary64.sub].
    cbn [length] in Hlen.
    replace (1 <=? z)%Z with true by (symmetry; apply Z.leb_le; lia).
    rewrite (IH _ (z - 1)%Z); [| reflexivity | lia | exact Hall].
    cbn [max_tokens refill_seconds last]. do 4 f_equal. lia.
Qed.

(** A bucket without a whole token refuses an attempt that sees no
    elapsed time, and stays as it is. *)
Lemma consume_all_exhausted (b : Binary64._Bucket) (now : float) :
  tokens b = Int 0 ->
  elapsed_positive b now = false ->
  Binary64.consume_all b [now] = Some ([false], b).
Proof.
  intros Htok Hnow. cbn [Binary64.consume_all].
  rewrite (can_consume_no_elapsed b 1 now Hnow).
  unfold Binary64.take. rewrite Htok. reflexivity.
Qed.

Lemma consume_all_app (b : Binary64._Bucket) (l1 l2 : list float) :
  Binary64.consume_all b (l1 ++ l2) =
  match Binary64.consume_all b l1 with
  | None => None
  | Some (r1, b1) =>
      match Binary64.consume_all b1 l2 with
      | None => None
      | Some (r2, b2) => Some (r1 ++ r2, b2)
      end
  end.
Proof.
  revert b. induction l1 as [| t l1 IH]; intros b; simpl.
  - destruct (Binary64.consume_all b l2) as [[r2 b2] |]; reflexivity.
  - destruct (Binary64.can_consume b 1 t) as [[ok b'] |]; [| reflexivity].
    rewrite IH. destruct (Binary64.consume_all b' l1) as [[r1 b1] |];
      [| reflexivity].
    destruct (Binary64.consume_all b1 l2) as [[r2 b2] |]; reflexivity.
Qed.

(** For a CRITICAL tool the gate is the bucket: it answers what the
    bucket answers and keeps the bucket the attempts leave. *)
Lemma rate_limit_all_critical (tool : Tool) (times : list float) :
  rate_limit_level tool = Py.Str "CRITICAL" ->
  forall b : Binary64._Bucket,
    rate_limit_all tool b times =
      match Binary64.consume_all b times with
      | None => None
      | Some (oks, b') => Some (map gate_of oks, b')
      end.
Proof.
  intros Hlevel. induction times as [| now times IH]; intros b.
  - reflexivity.
  - cbn [rate_limit_all Binary64.consume_all]. unfold rate_limit.
    replace (Py.eq_str (rate_limit_level tool) "CRITICAL") with true
      by (rewrite Hlevel; reflexivity).
    destruct (Binary64.can_consume b 1 now) as [[ok b'] |]; [| reflexivity].
    rewrite IH.
    destruct (Binary64.consume_all b' times) as [[oks b''] |]; reflexivity.
Qed.

Lemma map_gate_of_repeat (n : nat) :
  map gate_of (repeat true n) = repeat Proceeds n.
Proof. induction n as [| n IH]; simpl; [| rewrite IH]; reflexivity. Qed.

End Binary64Facts.

(** C4, as stated, fails twice.  The refusal does not last for the
    window: after five attempts at the creation of the adapter's bucket,
    a sixth 720 seconds later, well inside the window of 3600 seconds,
    is granted, and the gate lets all six requests for a CRITICAL tool
    go on.  And the time after which one token has come back by the
    formula is not always enough: for a bucket of one token per 49
    seconds, emptied at its creation, the count computed 49 seconds
    later is [49 * (1 / 49)], which is less than one in binary64, and
    the attempt is refused. *)
Lemma C4_sixth_attempt_in_the_window_is_granted :
  PrimFloat.ltb 720%float 3600%float = true /\
  Binary64.consume_all (Binary64._critical_bucket 0%float)
    [0; 0; 0; 0; 0; 720]%float =
    Some ([true; true; true; true; true; true],
          {| Binary64.max_tokens := 5; Binary64.refill_seconds := 3600;
             Binary64.tokens := Binary64.Float 0%float;
             Binary64.last := 720%float |}) /\
  fst <$> Binary64.rate_limit_all (registry_entry drop_tool)
            (Binary64._critical_bucket 0%float) [0; 0; 0; 0; 0; 720]%float =
    Some (repeat Binary64.Proceeds 6) /\
  fst <$> Binary64.consume_all (Binary64.Bucket_init 1 49 0%float)
            [0; 49]%float =
    Some [true; false] /\
  PrimFloat.ltb (PrimFloat.mul 49%float (PrimFloat.div 1%float 49%float))
                1%float = true.
Proof.
  repeat split; vm_compute; reflexivity.
Qed.

(** C4.  A bucket of capacity [C] and window [W] (a nonzero [W], both of
    magnitude at most [2^53]) in the arithmetic of the code.  An attempt
    that sees elapsed time first sets the count to [min(capacity, tokens
    + elapsed * (capacity / W))] and the clock of the bucket to the
    reading of the attempt; every attempt then is a check and decrement.
    Starting full, [C] attempts that see no elapsed time are granted and
    the next such attempt is refused, which leaves the bucket with no
    token and its clock where it was.  A later attempt, one that sees
    elapsed time, is granted exactly when the refilled count has reached
    one token, whether the window is over or not; granted or refused, it
    stores the refilled count and the new clock reading.  The gate of
    [execute] answers a CRITICAL tool as the bucket does, the refusal
    being the 429 rejection, keeps the bucket the attempt leaves, and
    never asks the bucket for a tool of another tier. *)
Theorem C4_critical_bucket_refill (C : nat) (W : Z) (t0 t t1 : float)
    (times : list float) (tool : Tool) :
  (Z.of_nat C <= 2 ^ 53)%Z -> W <> 0%Z -> (Z.abs W <= 2 ^ 53)%Z ->
  length times = C ->
  Forall (fun now =>
            Binary64.elapsed_positive
              (Binary64.Bucket_init (Z.of_nat C) W t0) now = false)
         (times ++ [t]) ->
  Binary64.elapsed_positive (Binary64.Bucket_init (Z.of_nat C) W t0) t1 = true ->
  rate_limit_level tool = Py.Str "CRITICAL" ->
  let full := Binary64.Bucket_init (Z.of_nat C) W t0 in
  let empty :=
    {| Binary64.max_tokens := Z.of_nat C; Binary64.refill_seconds := W;
       Binary64.tokens := Binary64.Int 0; Binary64.last := t0 |} in
  let refilled :=
    Binary64.py_min (Z.of_nat C)
      (Binary64.add (Binary64.Int 0)
         (PrimFloat.mul (PrimFloat.sub t1 t0)
            (PrimFloat.div (Binary64.of_int (Z.of_nat C)) (Binary64.of_int W)))) in
  let later :=
    {| Binary64.max_tokens := Z.of_nat C; Binary64.refill_seconds := W;
       Binary64.tokens :=
         if Binary64.geq refilled 1 then Binary64.sub refilled 1 else refilled;
       Binary64.last := t1 |} in
  (forall (b : Binary64._Bucket) (amt : Z) (now : float),
     Binary64.can_consume b amt now =
       if Binary64.elapsed_positive b now then
         if (Binary64.refill_seconds b =? 0)%Z then None
         else
           Some (Binary64.take
                   {| Binary64.max_tokens := Binary64.max_tokens b;
                      Binary64.refill_seconds := Binary64.refill_seconds b;
                      Binary64.tokens :=
                        Binary64.py_min (Binary64.max_tokens b)
                          (Binary64.add (Binary64.tokens b)
                             (PrimFloat.mul
                                (PrimFloat.sub now (Binary64.last b))
                                (PrimFloat.div
                                   (Binary64.of_int (Binary64.max_tokens b))
                                   (Binary64.of_int (Binary64.refill_seconds b)))));
                      Binary64.last := now |} amt)
       else Some (Binary64.take b amt)) /\
  (forall (b : Binary64._Bucket) (amt : Z),
     Binary64.take b amt =
       if Binary64.geq (Binary64.tokens b) amt then
         (true, {| Binary64.max_tokens := Binary64.max_tokens b;
                   Binary64.refill_seconds := Binary64.refill_seconds b;
                   Binary64.tokens := Binary64.sub (Binary64.tokens b) amt;
                   Binary64.last := Binary64.last b |})
       else (false, b)) /\
  Binary64.consume_all full (times ++ [t]) =
    Some (repeat true C ++ [false], empty) /\
  Binary64.can_consume empty 1 t1 = Some (Binary64.geq refilled 1, later) /\
  Binary64.rate_limit_all tool full (times ++ [t]) =
    Some (repeat Binary64.Proceeds C ++
            [Binary64.Rejected 429 "Critical operation rate limit exceeded"],
          empty) /\
  Binary64.rate_limit tool empty t1 =
    Some (if Binary64.geq refilled 1 then Binary64.Proceeds
          else Binary64.Rejected 429 "Critical operation rate limit exceeded",
          later) /\
  (forall (other : Tool) (b : Binary64._Bucket) (now : float),
     Py.eq_str (rate_limit_level other) "CRITICAL" = false ->
     Binary64.rate_limit other b now = Some (Binary64.Proceeds, b)).
Proof.
  intros _ Hw _ Hlen Hall Hlater Hlevel full empty refilled later.
  apply Forall_app in Hall as [Htimes Ht]. apply Forall_inv in Ht.
  assert (Hrun : Binary64.consume_all full (times ++ [t]) =
                 Some (repeat true C ++ [false], empty)).
  { rewrite consume_all_app.
    rewrite (consume_all_no_elapsed times full (Z.of_nat C));
      [| reflexivity | lia | exact Htimes].
    rewrite Hlen, Z.sub_diag.
    rewrite (consume_all_exhausted _ t); [reflexivity | reflexivity | exact Ht]. }
  assert (Hnext : Binary64.can_consume empty 1 t1 =
                  Some (Binary64.geq refilled 1, later)).
  { rewrite (can_consume_elapsed empty 1 t1 Hlater Hw).
    unfold Binary64.take. cbn [Binary64.tokens Binary64.max_tokens
      Binary64.refill_seconds Binary64.last empty].
    fold refilled. unfold later.
    destruct (Binary64.geq refilled 1); reflexivity. }
  split.
  { intros b amt now. destruct (Binary64.elapsed_positive b now) eqn:Hel.
    - destruct (Binary64.refill_seconds b =? 0)%Z eqn:Hz.
      + unfold Binary64.can_consume, Binary64.refill.
        unfold Binary64.elapsed_positive in Hel. rewrite Hel, Hz. reflexivity.
      + apply can_consume_elapsed; [exact Hel | apply Z.eqb_neq; exact Hz].
    - apply can_consume_no_elapsed. exact Hel. }
  split; [reflexivity |].
  split; [exact Hrun |].
  split; [exact Hnext |].
  split.
  { rewrite (rate_limit_all_critical tool _ Hlevel), Hrun.
    rewrite map_app, map_gate_of_repeat. reflexivity. }
  split.
  { unfold Binary64.rate_limit.
    replace (Py.eq_str (rate_limit_level tool) "CRITICAL") with true
      by (rewrite Hlevel; reflexivity).
    rewrite Hnext. reflexivity. }
  intros other b now Hother. unfold Binary64.rate_limit.
  rewrite Hother. reflexivity.
Qed.

(** The adapter's bucket, [_Bucket(5, 3600)] created at clock reading 0:
    six attempts at once, then one after 719 seconds and, starting again
    from the emptied bucket, one after 720 seconds. *)
Lemma C4_critical_bucket_refill_witness :
  Binary64.consume_all (Binary64._critical_bucket 0%float)
    [0; 0; 0; 0; 0; 0]%float =
    Some ([true; true; true; true; true; false],
          {| Binary64.max_tokens := 5; Binary64.refill_seconds := 3600;
             Binary64.tokens := Binary64.Int 0; Binary64.last := 0%float |}) /\
  Binary64.can_consume
    {| Binary64.max_tokens := 5; Binary64.refill_seconds := 3600;
       Binary64.tokens := Binary64.Int 0; Binary64.last := 0%float |}
    1 720%float =
    Some (true,
          {| Binary64.max_tokens := 5; Binary64.refill_seconds := 3600;
             Binary64.tokens := Binary64.Float 0%float;
             Binary64.last := 720%float |}) /\
  Binary64.rate_limit_all (registry_entry drop_tool)
    (Binary64._critical_bucket 0%float) [0; 0; 0; 0; 0; 0]%float =
    Some ([Binary64.Proceeds; Binary64.Proceeds; Binary64.Proceeds;
           Binary64.Proceeds; Binary64.Proceeds;
           Binary64.Rejected 429 "Critical operation rate limit exceeded"],
          {| Binary64.max_tokens := 5; Binary64.refill_seconds := 3600;
             Binary64.tokens := Binary64.Int 0; Binary64.last := 0%float |}).
Proof.
  pose proof (C4_critical_bucket_refill 5 3600 0%float 0%float 720%float
                [0; 0; 0; 0; 0]%float (registry_entry drop_tool)
                ltac:(vm_compute; discriminate) ltac:(discriminate)
                ltac:(vm_compute; discriminate) eq_refl
                ltac:(repeat constructor) eq_refl eq_refl)
    as (_ & _ & Hrun & Hnext & Hgate & _).
  split; [exact Hrun |]. split; [| exact Hgate].
  exact Hnext.
Defined.

(** ** The two phases of an approval-required call *)




(** ** A failing durable store *)

(** C6.  A registered tool whose approval flag is set is called without
    the marker while the durable store cannot be written (the helper
    cannot be imported, or the write raises).  Unless the rate limiter
    has already rejected the request, in which case nothing was to be
    recorded, the answer is the pending outcome: a 200 response carrying
    [approval_required: True] and a null [memory_id].  The provider is
    not called and no exception is left unhandled. *)
Theorem C6_store_failure_still_pending (cfg : Config)
    (REGISTRY : gmap string Tool) (w : World) (req : ExecuteRequest)
    (key : option string) (ro : option bool) (st : State) (tool : Tool) :
  REGISTRY !! tool_name req = Some tool ->
  approval_required tool = true ->
  _validate_key cfg key (read_only_of ro) = true ->
  refill_seconds (critical_bucket st) <> 0%Z ->
  already_approved req = false ->
  (memory w = MemoryImportError \/
   exists write, memory w = Memory write /\
                 write (approval_record req key) = None) ->
  tool_calls (snd (execute cfg REGISTRY w req key ro st)) = tool_calls st /\
  if is_rate_limited (fst (execute cfg REGISTRY w req key ro st))
  then memory_writes (snd (execute cfg REGISTRY w req key ro st)) =
       memory_writes st
  else fst (execute cfg REGISTRY w req key ro st) =
       JSONResponse 200
         {| success := false;
            resp_request_id := rid_of w req;
            resp_tool_name := tool_name req;
            result := Some (Value (Py.Dict [("approval_required", Py.Bool true);
                                            ("memory_id", Py.None_)]));
            error := Some "approval_required";
            execution_time_ms := 0%Q;
            governance_level := rate_limit_level tool |}.
Proof.
  intros Hreg Happ Hk Hw Hn Hmem.
  destruct (execute_rate_gate cfg REGISTRY w req key ro st tool Hreg Hk Hw)
    as (b & _ & [-> | ->]).
  - simpl. split; reflexivity.
  - rewrite (dispatch_pending _ _ _ _ _ _ Happ Hn). simpl.
    destruct (persist_approval_state w (with_bucket st b)
                (approval_record req key)) as [_ ->].
    split; [reflexivity |].
    unfold persist_approval.
    destruct Hmem as [-> | (write & -> & ->)]; reflexivity.
Qed.

(** [drop-all-data] on the sample deployment with an unreachable store. *)
Lemma C6_store_failure_still_pending_witness :
  fst (execute sample_config sample_registry (degraded_world 0) drop_request
         (Some "s3cret") None (initial_state 0)) =
    JSONResponse 200
      {| success := false;
         resp_request_id := "r-1";
         resp_tool_name := "drop-all-data";
         result := Some (Value (Py.Dict [("approval_required", Py.Bool true);
                                         ("memory_id", Py.None_)]));
         error := Some "approval_required";
         execution_time_ms := 0%Q;
         governance_level := Py.Str "CRITICAL" |}.
Proof.
  pose proof (C6_store_failure_still_pending sample_config sample_registry
                (degraded_world 0) drop_request (Some "s3cret") None
                (initial_state 0) (registry_entry drop_tool)
                ltac:(vm_compute; reflexivity) eq_refl eq_refl
                ltac:(discriminate) eq_refl
                ltac:(right; eexists; split; reflexivity)) as [_ H].
  vm_compute in H. vm_compute. exact H.
Defined.

(** ** Where the approval marker lives *)

(** C10.  The marker is the truth value of ["_approved"] in the
    request's arguments; no other top-level key of the body reaches
    [execute].  For a registered tool whose approval flag is set, on a
    request the rate limiter lets through: without the marker, the
    record handed to the durable store carries the arguments mapping as
    it came (with ["_approved"] if the caller sent a falsy one); with the
    marker, on a call that is not a dry run, the provider is called with
    the arguments mapping as it came, marker included. *)
Theorem C10_marker_travels_in_arguments (cfg : Config)
    (REGISTRY : gmap string Tool) (w : World) (req : ExecuteRequest)
    (key : option string) (ro : option bool) (st : State) (tool : Tool) :
  REGISTRY !! tool_name req = Some tool ->
  approval_required tool = true ->
  _validate_key cfg key (read_only_of ro) = true ->
  refill_seconds (critical_bucket st) <> 0%Z ->
  is_rate_limited (fst (execute cfg REGISTRY w req key ro st)) = false ->
  (forall (body : RequestBody) (extra : Py.dict),
      ExecuteRequest_of_body (with_extra body extra) =
      ExecuteRequest_of_body body) /\
  (Py.truthy (Py.get (arguments req) "_approved" (Py.Bool false)) = false ->
   (exists mem_id : Py.value,
       fst (execute cfg REGISTRY w req key ro st) =
         JSONResponse 200 (pending_content (rid_of w req) req tool mem_id)) /\
   Py.lookup "arguments" (approval_record req key) =
     Some (Py.Dict (arguments req)) /\
   forall write, memory w = Memory write ->
     memory_writes (snd (execute cfg REGISTRY w req key ro st)) =
       memory_writes st ++ [approval_record req key]) /\
  (Py.truthy (Py.get (arguments req) "_approved" (Py.Bool false)) = true ->
   dry_run req = false ->
   forall call_tool, server w = Server call_tool ->
     tool_calls (snd (execute cfg REGISTRY w req key ro st)) =
       tool_calls st ++ [(tool_name req, arguments req)]).
Proof.
  intros Hreg Happ Hk Hw Hrl.
  split; [intros body extra; reflexivity |].
  destruct (execute_rate_gate cfg REGISTRY w req key ro st tool Hreg Hk Hw)
    as (b & _ & [E | E]); rewrite E in Hrl |- *; [discriminate Hrl |].
  split.
  - intros Hn. rewrite (dispatch_pending _ _ _ _ _ _ Happ Hn). simpl.
    split; [eauto |]. split; [reflexivity |].
    intros write Hm. unfold persist_approval. rewrite Hm.
    destruct (write (approval_record req key)); reflexivity.
  - intros Hy Hdry call_tool Hs.
    rewrite dispatch_cleared by (right; exact Hy). rewrite Hdry.
    rewrite (call_provider_once _ _ _ _ _ call_tool Hs). reflexivity.
Qed.

(** The approved [drop-all-data] call of the sample deployment reaches
    the provider with the marker still among its arguments. *)
Lemma C10_marker_travels_in_arguments_witness :
  tool_calls
    (snd (execute sample_config sample_registry (sample_world 0)
            (approved drop_request) (Some "s3cret") None (initial_state 0))) =
  [("drop-all-data", [("_approved", Py.Bool true)])].
Proof.
  pose proof (C10_marker_travels_in_arguments sample_config sample_registry
                (sample_world 0) (approved drop_request) (Some "s3cret") None
                (initial_state 0) (registry_entry drop_tool)
                ltac:(vm_compute; reflexivity) eq_refl eq_refl
                ltac:(discriminate) ltac:(vm_compute; reflexivity))
    as (_ & _ & H).
  exact (H eq_refl eq_refl _ eq_refl).
Defined.

(** ** Dry runs *)

Section DryRun.

Local Close Scope Q_scope.

(** Whatever else happens to it, a dry run never reaches the provider. *)
Lemma dry_run_never_calls_provider (cfg : Config) (REGISTRY : gmap string Tool)
    (w : World) (req : ExecuteRequest) (key : option string)
    (ro : option bool) (st : State) :
  dry_run req = true ->
  tool_calls (snd (execute cfg REGISTRY w req key ro st)) = tool_calls st.
Proof.
  intros Hdry. unfold execute.
  destruct (REGISTRY !! tool_name req) as [tool |]; [| reflexivity].
  destruct (negb (_validate_key cfg key (read_only_of ro))); [reflexivity |].
  assert (Hd : forall st',
             tool_calls (snd (approve_and_dispatch w (rid_of w req) req key
                                tool st')) = tool_calls st').
  { intros st'. unfold approve_and_dispatch. rewrite Hdry.
    destruct (approval_required tool && negb (already_approved req));
      [| reflexivity].
    pose proof (persist_approval_state w st' (approval_record req key))
      as [_ Hp].
    destruct (persist_approval w (approval_record req key) st').
    exact Hp. }
  destruct (Py.eq_str (rate_limit_level tool) "CRITICAL"); [| apply Hd].
  destruct (can_consume (critical_bucket st) 1 (time_now w))
    as [[[|] b] |]; try reflexivity.
  rewrite Hd. reflexivity.
Qed.

End DryRun.

(** C1 does not hold of [execute]: the dry run is checked after the rate
    limiter and after the approval check.  A dry run of the CRITICAL
    [drop-all-data] without the marker takes a token from the bucket,
    writes an approval record and is answered as pending; and of six
    dry runs carrying the marker, one second apart, the sixth is rejected
    as rate-limited. *)
Theorem C1_dry_run_is_checked_last :
  (fst (execute sample_config sample_registry (sample_world 0)
          dry_drop_request (Some "s3cret") None (initial_state 0)) =
     JSONResponse 200
       (pending_content "r-1" dry_drop_request (registry_entry drop_tool)
          (Py.Str "mem-1")) /\
   memory_writes
     (snd (execute sample_config sample_registry (sample_world 0)
             dry_drop_request (Some "s3cret") None (initial_state 0))) =
     [approval_record dry_drop_request (Some "s3cret")] /\
   tokens (critical_bucket
     (snd (execute sample_config sample_registry (sample_world 0)
             dry_drop_request (Some "s3cret") None (initial_state 0)))) == 4)
  /\
  fst (execute_all sample_config sample_registry
         (burst (approved dry_drop_request) (Some "s3cret"))
         (initial_state 0)) =
    repeat (JSONResponse 200
              (dry_run_content "r-1" (approved dry_drop_request)
                 (registry_entry drop_tool))) 5 ++
    [HTTPException 429 "Critical operation rate limit exceeded"].
Proof. vm_compute. repeat split. Qed.

(** C2 holds of [execute] only in its first half.  No dry run calls the
    provider; but the answer to a dry run that gets as far as the dry-run
    step lists the names of the arguments the caller sent, not the
    parameters registered for the tool: for [echo], registered with the
    one parameter [text], a dry run sent with an argument [bogus] is
    answered with [parameters_provided: ["bogus"]]. *)
Theorem C2_dry_run_lists_the_arguments_sent :
  (forall (cfg : Config) (REGISTRY : gmap string Tool) (w : World)
          (req : ExecuteRequest) (key : option string) (ro : option bool)
          (st : State),
      dry_run req = true ->
      tool_calls (snd (execute cfg REGISTRY w req key ro st)) = tool_calls st) /\
  map param_name (parameters (registry_entry echo_tool)) = ["text"] /\
  sample_registry !! "echo" = Some (registry_entry echo_tool) /\
  fst (execute sample_config sample_registry (sample_world 0)
         dry_echo_request (Some "s3cret") None (initial_state 0)) =
    JSONResponse 200
      {| success := true;
         resp_request_id := "r-2";
         resp_tool_name := "echo";
         result := Some (Value (Py.Dict
                     [("dry_run", Py.Bool true);
                      ("parameters_provided", Py.List [Py.Str "bogus"])]));
         error := None;
         execution_time_ms := 0%Q;
         governance_level := Py.Str "LOW" |}.
Proof.
  split; [exact dry_run_never_calls_provider |].
  vm_compute. repeat split.
Qed.

(** ** Background execution *)

(** C7 does not hold of [execute]: [ExecuteRequest] has no background
    field, so the flag of the body is dropped when the request is built,
    and the request is served synchronously.  For [echo], the provider is
    called before the answer is made, and the answer is the 200 envelope
    carrying what the provider returned. *)
Theorem C7_background_flag_is_dropped :
  (forall (body : RequestBody) (extra : Py.dict),
      ExecuteRequest_of_body (with_extra body extra) =
      ExecuteRequest_of_body body) /\
  Py.lookup "background" (body_extra background_body) = Some (Py.Bool true) /\
  execute sample_config sample_registry (sample_world 0)
    (ExecuteRequest_of_body background_body) (Some "s3cret") None
    (initial_state 0) =
  (JSONResponse 200
     {| success := true;
        resp_request_id := "r-7";
        resp_tool_name := "echo";
        result := Some (Value (Py.Str "hi"));
        error := None;
        execution_time_ms := elapsed_ms (sample_world 0);
        governance_level := Py.Str "LOW" |},
   with_tool_call (initial_state 0) "echo" [("text", Py.Str "hi")]).
Proof.
  split; [intros body extra; reflexivity |].
  vm_compute. repeat split.
Qed.

(** ** The bucket stays well-formed *)

Section BucketRuns.

Local Open Scope Q_scope.

Lemma py_min_le_l (a b : Q) : py_min a b <= a.
Proof. rewrite py_min_spec. apply Q.le_min_l. Qed.

Lemma py_min_le_r (a b : Q) : py_min a b <= b.
Proof. rewrite py_min_spec. apply Q.le_min_r. Qed.

Lemma py_min_glb (a b c : Q) : c <= a -> c <= b -> c <= py_min a b.
Proof. intros Ha Hb. rewrite py_min_spec. apply Q.min_glb; assumption. Qed.

Lemma bucket_rate_nonneg (b : _Bucket) :
  bucket_ok b -> 0 <= inject_Z (max_tokens b) / inject_Z (refill_seconds b).
Proof.
  intros (Hc & Hw & _). unfold Qdiv. apply Qmult_le_0_compat.
  - change 0 with (inject_Z 0). rewrite <- Zle_Qle. exact Hc.
  - apply Qlt_le_weak, Qinv_lt_0_compat.
    change 0 with (inject_Z 0). rewrite <- Zlt_Qlt. exact Hw.
Qed.

(** One attempt on a well-formed bucket: it answers, the bucket stays
    well-formed, its clock does not go back, and what it holds plus what
    it gave is at most what it held plus what came back in between. *)
Lemma can_consume_step (b : _Bucket) (amt : Z) (now : Q) :
  bucket_ok b -> (0 <= amt)%Z ->
  exists (ok : bool) (b' : _Bucket),
    can_consume b amt now = Some (ok, b') /\
    bucket_ok b' /\
    max_tokens b' = max_tokens b /\ refill_seconds b' = refill_seconds b /\
    last b <= last b' /\ (last b' <= now \/ last b' = last b) /\
    tokens b' + (if ok then inject_Z amt else 0) <=
      tokens b + (last b' - last b) *
                 (inject_Z (max_tokens b) / inject_Z (refill_seconds b)) /\
    (ok = false -> tokens b' < inject_Z amt).
Proof.
  intros Hok Hamt.
  pose proof (bucket_rate_nonneg b Hok) as Hrate.
  destruct Hok as (Hc & Hw & Hlo & Hhi).
  assert (Ha : 0 <= inject_Z amt)
    by (change 0 with (inject_Z 0); rewrite <- Zle_Qle; exact Hamt).
  set (rate := inject_Z (max_tokens b) / inject_Z (refill_seconds b)) in *.
  assert (Hstep : exists b1 : _Bucket,
             refill b now = Some b1 /\
             max_tokens b1 = max_tokens b /\
             refill_seconds b1 = refill_seconds b /\
             last b <= last b1 /\ (last b1 <= now \/ last b1 = last b) /\
             0 <= tokens b1 /\ tokens b1 <= inject_Z (max_tokens b) /\
             tokens b1 <= tokens b + (last b1 - last b) * rate).
  { destruct (Qlt_le_dec (last b) now) as [Hel | Hel].
    - unfold refill.
      replace (Qlt_bool 0 (now - last b)) with true
        by (symmetry; apply Qlt_bool_iff; lra).
      destruct (Z.eqb_spec (refill_seconds b) 0) as [E | _]; [lia |].
      eexists. split; [reflexivity |]. simpl. fold rate.
      assert (0 <= (now - last b) * rate)
        by (apply Qmult_le_0_compat; [lra | exact Hrate]).
      split; [reflexivity |]. split; [reflexivity |].
      split; [lra |]. split; [left; lra |].
      split; [apply py_min_glb; lra |].
      split; [apply py_min_le_l |].
      eapply Qle_trans; [apply py_min_le_r |]. lra.
    - exists b. rewrite refill_no_elapsed by exact Hel.
      repeat split; try reflexivity; try assumption; try lra.
      right. reflexivity. }
  destruct Hstep as (b1 & Hr & Hm & Hws & Hl & Hl' & Hlo1 & Hhi1 & Hle).
  unfold can_consume. rewrite Hr. unfold take.
  destruct (Qle_bool (inject_Z amt) (tokens b1)) eqn:E.
  - apply Qle_bool_iff in E. eexists. eexists. split; [reflexivity |].
    simpl. unfold bucket_ok. simpl. rewrite Hm, Hws.
    repeat split; try assumption; try lra; try discriminate.
  - assert (Hlt : tokens b1 < inject_Z amt).
    { apply Qnot_le_lt. intros H. apply Qle_bool_iff in H. congruence. }
    exists false, b1. split; [reflexivity |].
    unfold bucket_ok. rewrite Hm, Hws.
    repeat split; try assumption; try lra.
Qed.

End BucketRuns.

(** X1.  A well-formed bucket always answers an attempt for a
    non-negative amount (no division by zero), stays well-formed, keeps
    its capacity and window, and never moves its clock back; a refusal
    means that fewer tokens than asked for are left. *)
Theorem X1_bucket_stays_well_formed (b : _Bucket) (amt : Z) (now : Q) :
  bucket_ok b -> (0 <= amt)%Z ->
  exists (ok : bool) (b' : _Bucket),
    can_consume b amt now = Some (ok, b') /\
    bucket_ok b' /\
    max_tokens b' = max_tokens b /\ refill_seconds b' = refill_seconds b /\
    (last b <= last b')%Q /\
    (ok = false -> (tokens b' < inject_Z amt)%Q).
Proof.
  intros Hok Hamt.
  destruct (can_consume_step b amt now Hok Hamt)
    as (ok & b' & Hc & Hok' & Hm & Hw & Hl & _ & _ & Href).
  exists ok, b'. repeat split; try assumption; apply Hok'.
Qed.

Lemma critical_bucket_ok (time : Q) : bucket_ok (_critical_bucket time).
Proof.
  unfold bucket_ok. simpl. repeat split; try lia; try discriminate.
Qed.

(** The adapter's bucket, asked for one token an hour after its creation. *)
Lemma X1_bucket_stays_well_formed_witness :
  exists (ok : bool) (b' : _Bucket),
    can_consume (_critical_bucket 0) 1 3600 = Some (ok, b') /\
    bucket_ok b' /\
    max_tokens b' = 5%Z /\ refill_seconds b' = 3600%Z /\
    (0 <= last b')%Q /\
    (ok = false -> (tokens b' < inject_Z 1)%Q).
Proof.
  exact (X1_bucket_stays_well_formed (_critical_bucket 0) 1 3600
           (critical_bucket_ok 0) ltac:(lia)).
Defined.

(** ** Dictionaries in insertion order *)

Section OrderedDict.

Context {A : Type}.

Lemma dict_set_to_map (k : string) (v : A) (d : list (string * A)) :
  (list_to_map (dict_set k v d) : gmap string A) = <[k := v]> (list_to_map d).
Proof.
  induction d as [| [k' v'] d IH]; simpl; [reflexivity |].
  destruct (String.eqb_spec k k') as [<- | Hne]; simpl.
  - rewrite insert_insert_eq. reflexivity.
  - rewrite IH. apply insert_insert_ne. congruence.
Qed.

Lemma dict_set_keys (k : string) (v : A) (d : list (string * A)) :
  map fst (dict_set k v d) =
  if bool_decide (k ∈ map fst d) then map fst d else map fst d ++ [k].
Proof.
  induction d as [| [k' v'] d IH].
  - rewrite bool_decide_eq_false_2 by apply not_elem_of_nil. reflexivity.
  - cbn [dict_set]. destruct (String.eqb_spec k k') as [<- | Hne];
      cbn [map fst].
    + rewrite bool_decide_eq_true_2 by apply list_elem_of_here. reflexivity.
    + rewrite IH. destruct (bool_decide (k ∈ map fst d)) eqn:E.
      * apply bool_decide_eq_true_1 in E.
        rewrite bool_decide_eq_true_2 by (apply list_elem_of_further, E).
        reflexivity.
      * apply bool_decide_eq_false_1 in E.
        rewrite bool_decide_eq_false_2; [reflexivity |].
        intros H. apply elem_of_cons in H as [H | H];
          [congruence | contradiction].
Qed.

Lemma dict_set_NoDup (k : string) (v : A) (d : list (string * A)) :
  NoDup (map fst d) -> NoDup (map fst (dict_set k v d)).
Proof.
  intros H. rewrite dict_set_keys.
  destruct (bool_decide (k ∈ map fst d)) eqn:E; [exact H |].
  apply bool_decide_eq_false_1 in E.
  apply NoDup_app. split; [exact H |]. split; [| apply NoDup_singleton].
  intros x Hx Hk. apply list_elem_of_singleton in Hk. subst. contradiction.
Qed.

(** Setting a key that is not there yet appends the binding. *)
Lemma dict_set_fresh (k : string) (v : A) (d : list (string * A)) :
  k ∉ map fst d -> dict_set k v d = d ++ [(k, v)].
Proof.
  induction d as [| [k' v'] d IH]; simpl; intros H; [reflexivity |].
  apply not_elem_of_cons in H as [Hne Hd].
  destruct (String.eqb_spec k k') as [-> | _]; [contradiction |].
  rewrite IH by exact Hd. reflexivity.
Qed.

(** Filling a dictionary from items whose keys are all different and new
    keeps the items, in their order. *)
Lemma foldl_dict_set_fresh {B : Type} (key : B -> string) (val : B -> A)
    (l : list B) :
  forall acc : list (string * A),
    NoDup (map fst acc ++ map key l) ->
    foldl (fun d x => dict_set (key x) (val x) d) acc l =
    acc ++ map (fun x => (key x, val x)) l.
Proof.
  induction l as [| x l IH]; intros acc Hnd; simpl.
  - rewrite app_nil_r. reflexivity.
  - assert (Hfresh : key x ∉ map fst acc).
    { intros Hin. apply NoDup_app in Hnd as (_ & Hdis & _).
      apply (Hdis (key x) Hin). apply list_elem_of_here. }
    rewrite dict_set_fresh by exact Hfresh.
    rewrite IH.
    + rewrite <- app_assoc. reflexivity.
    + rewrite map_app. simpl. rewrite <- app_assoc. exact Hnd.
Qed.

End OrderedDict.

(** ** The registry and the introspection endpoints *)

Section RegistryViews.

(** The loop of [_build_registry], seen as a map and seen in order. *)
Lemma build_loop_views (tools : list RawTool) :
  forall acc : list (string * Tool),
    NoDup (map fst acc) ->
    NoDup
      (map fst (foldl (fun reg t => dict_set (raw_name t) (registry_entry t) reg)
                      acc tools)) /\
    (list_to_map
       (foldl (fun reg t => dict_set (raw_name t) (registry_entry t) reg)
              acc tools) : gmap string Tool) =
    foldl (fun reg t => <[raw_name t := registry_entry t]> reg)
          (list_to_map acc) tools.
Proof.
  induction tools as [| t tools IH]; intros acc Hnd; simpl.
  - split; [exact Hnd | reflexivity].
  - destruct (IH (dict_set (raw_name t) (registry_entry t) acc))
      as [Hnd' Hmap]; [apply dict_set_NoDup, Hnd |].
    split; [exact Hnd' |]. rewrite Hmap, dict_set_to_map. reflexivity.
Qed.

Lemma registry_items_spec (main_extended : option (list RawTool)) :
  NoDup (map fst (_build_registry_items main_extended)) /\
  (list_to_map (_build_registry_items main_extended) : gmap string Tool) =
  _build_registry main_extended.
Proof.
  unfold _build_registry_items, _build_registry.
  destruct (build_loop_views (_load_tools_from_main main_extended) [])
    as [Hnd Hmap]; [constructor |].
  split; [exact Hnd | exact Hmap].
Qed.

Lemma registry_items_lookup (main_extended : option (list RawTool))
    (n : string) (e : Tool) :
  (n, e) ∈ _build_registry_items main_extended <->
  _build_registry main_extended !! n = Some e.
Proof.
  destruct (registry_items_spec main_extended) as [Hnd <-].
  apply elem_of_list_to_map. exact Hnd.
Qed.

End RegistryViews.

(** X4.  The registry never holds a name twice, whatever the provider
    lists: in the order of [REGISTRY.items()] the names are all
    different, and a name is bound to an entry there exactly when
    [execute]'s lookup of that name finds that entry. *)
Theorem X4_registry_names_are_unique (main_extended : option (list RawTool)) :
  NoDup (map fst (_build_registry_items main_extended)) /\
  forall (n : string) (e : Tool),
    (n, e) ∈ _build_registry_items main_extended <->
    _build_registry main_extended !! n = Some e.
Proof.
  split; [apply registry_items_spec |].
  intros n e. apply registry_items_lookup.
Qed.

Section RegistryOverwrites.

(** Descriptors of other names leave a binding alone. *)
Lemma build_loop_other_names (tools : list RawTool) (n : string) :
  (forall t, t ∈ tools -> raw_name t <> n) ->
  forall reg : gmap string Tool,
    foldl (fun reg t => <[raw_name t := registry_entry t]> reg) reg tools !! n
    = reg !! n.
Proof.
  induction tools as [| t tools IH]; intros Hne reg; simpl; [reflexivity |].
  rewrite IH by (intros t' Ht'; apply Hne, list_elem_of_further, Ht').
  apply lookup_insert_ne. apply Hne, list_elem_of_here.
Qed.

End RegistryOverwrites.

(** X5.  When the provider lists a name more than once, the last
    descriptor of that name is the one registered; in particular every
    listed name is registered. *)
Theorem X5_last_descriptor_wins (before after : list RawTool) (t : RawTool) :
  (forall t', t' ∈ after -> raw_name t' <> raw_name t) ->
  _build_registry (Some (before ++ t :: after)) !! raw_name t =
    Some (registry_entry t).
Proof.
  intros Hlast. unfold _build_registry. simpl.
  rewrite foldl_app. simpl.
  rewrite build_loop_other_names by exact Hlast.
  apply lookup_insert_eq.
Qed.

(** Two descriptors named [echo], the second one CRITICAL. *)
Lemma X5_last_descriptor_wins_witness :
  _build_registry
    (Some ([echo_tool] ++
           {| raw_name := "echo"; raw_description := "second";
              raw_inputSchema := None;
              raw_governance := Some [("level", Py.Str "CRITICAL")] |}
           :: [ping_tool])) !! "echo" =
  Some {| name := "echo"; description := "second"; parameters := [];
          rate_limit_level := Py.Str "CRITICAL"; approval_required := true |}.
Proof.
  apply (X5_last_descriptor_wins [echo_tool]
           [ping_tool]
           {| raw_name := "echo"; raw_description := "second";
              raw_inputSchema := None;
              raw_governance := Some [("level", Py.Str "CRITICAL")] |}).
  intros t' Ht'. apply list_elem_of_singleton in Ht'. subst t'.
  vm_compute. discriminate.
Defined.

(** ** Health and tool listing *)

Section Listing.

Lemma registry_entry_name (main_extended : option (list RawTool))
    (n : string) (e : Tool) :
  _build_registry main_extended !! n = Some e -> name e = n.
Proof.
  intros H. unfold _build_registry in H.
  apply build_loop_entries in H as [H | (t & _ & Hn & ->)].
  - rewrite lookup_empty in H. discriminate.
  - exact Hn.
Qed.

Lemma execute_registered_is_not_unknown (REGISTRY : gmap string Tool)
    (n : string) (tool : Tool) (w : World) (st : State) :
  REGISTRY !! n = Some tool ->
  execute {| SAFE_MODE := true; MCP_API_KEY := "k" |} REGISTRY w
    {| tool_name := n; arguments := []; dry_run := false; request_id := None |}
    None None st <>
  (HTTPException 400 "Unknown tool", st).
Proof.
  intros H. unfold execute. cbn [tool_name]. rewrite H. simpl. discriminate.
Qed.

End Listing.

(** X6.  [tools] and [execute] agree on what is registered: the count is
    the length of the listing and the number of names [execute] knows,
    no name is listed twice, and every listed tool is found by [execute]
    under the name the listing gives it. *)
Theorem X6_tools_lists_what_execute_knows
    (main_extended : option (list RawTool)) :
  let listing := tools (_build_registry_items main_extended) in
  fst listing = length (snd listing) /\
  fst listing = size (_build_registry main_extended) /\
  NoDup (map name (snd listing)) /\
  forall t : Tool,
    t ∈ snd listing <-> _build_registry main_extended !! name t = Some t.
Proof.
  destruct (registry_items_spec main_extended) as [Hnd Hmap].
  assert (Hnames : forall nt, nt ∈ _build_registry_items main_extended ->
                              name (snd nt) = fst nt).
  { intros [n e] Hin. apply registry_items_lookup in Hin.
    apply (registry_entry_name main_extended n e Hin). }
  assert (Hsame : map name (map snd (_build_registry_items main_extended)) =
                  map fst (_build_registry_items main_extended)).
  { rewrite map_map. apply map_ext_in. intros nt Hin.
    apply Hnames, list_elem_of_In, Hin. }
  unfold tools. simpl. split; [| split; [| split]].
  - rewrite length_map. reflexivity.
  - rewrite <- Hmap. symmetry. apply map_size_list_to_map. exact Hnd.
  - rewrite Hsame. exact Hnd.
  - intros t. split.
    + intros Hin. apply list_elem_of_In, in_map_iff in Hin as ([n e] & <- & Hin).
      apply list_elem_of_In in Hin.
      pose proof (Hnames _ Hin) as Hn. simpl in Hn |- *.
      rewrite Hn. apply registry_items_lookup, Hin.
    + intros H. apply registry_items_lookup in H.
      apply list_elem_of_In, in_map_iff. exists (name t, t).
      split; [reflexivity | apply list_elem_of_In, H].
Qed.

(** X7.  [health] reports the provider as unavailable exactly when the
    registry is empty, which is exactly when [execute] answers every
    request, whatever its credentials, with "Unknown tool"; that is the
    case when the provider could not be imported. *)
Theorem X7_health_tells_whether_anything_can_run
    (main_extended : option (list RawTool)) (utcnow : string) :
  (mcp_server_available
     (health (_build_registry_items main_extended) utcnow) = false <->
   forall (cfg : Config) (w : World) (req : ExecuteRequest)
          (key : option string) (ro : option bool) (st : State),
     execute cfg (_build_registry main_extended) w req key ro st =
       (HTTPException 400 "Unknown tool", st)) /\
  mcp_server_available (health (_build_registry_items None) utcnow) = false.
Proof.
  split; [| reflexivity].
  destruct (registry_items_spec main_extended) as [_ Hmap].
  unfold health. simpl. split.
  - intros Hempty cfg w req key ro st.
    apply execute_unknown_tool. rewrite <- Hmap.
    destruct (_build_registry_items main_extended); [| discriminate].
    apply lookup_empty.
  - intros Hall.
    destruct (_build_registry_items main_extended) as [| [n e] items] eqn:E;
      [reflexivity | exfalso].
    assert (Hreg : _build_registry main_extended !! n = Some e).
    { apply registry_items_lookup. rewrite E. apply list_elem_of_here. }
    apply (execute_registered_is_not_unknown _ n e
             (sample_world 0) (initial_state 0) Hreg).
    apply Hall.
Qed.

(** ** The generated capability document *)

Section OpenAPIPaths.

Lemma execute_path_inj : Inj eq eq (String.append "/mcp/execute/").
Proof. apply String.app_inj. Qed.

Lemma openapi_paths (REGISTRY : list (string * Tool)) (base_url : option string) :
  NoDup (map fst REGISTRY) ->
  paths (openapi REGISTRY base_url) =
  map (fun nt => (String.append "/mcp/execute/" (fst nt),
                  operation_of (fst nt) (snd nt))) REGISTRY.
Proof.
  intros Hnd. unfold openapi. cbn [paths].
  rewrite (foldl_dict_set_fresh
             (fun nt : string * Tool => String.append "/mcp/execute/" (fst nt))
             (fun nt => operation_of (fst nt) (snd nt))); [reflexivity |].
  cbn [map app].
  rewrite <- (map_map fst (String.append "/mcp/execute/")).
  apply (NoDup_fmap_2 (String.append "/mcp/execute/")). exact Hnd.
Qed.

End OpenAPIPaths.

(** X8.  The generated document is made from the registry as it is when
    asked: it is always marked attach-ready and names the given base URL
    as its only server, and it has exactly one path per registered tool,
    [/mcp/execute/<name>], in the order of the registry, carrying that
    tool's description and the operation id [execute_<name>]; a name that
    is not registered has no path. *)
Theorem X8_openapi_has_one_path_per_tool (REGISTRY : list (string * Tool))
    (base_url : option string) :
  NoDup (map fst REGISTRY) ->
  x_mcp_attach_ready (openapi REGISTRY base_url) = true /\
  servers (openapi REGISTRY base_url) = [base_url] /\
  map fst (paths (openapi REGISTRY base_url)) =
    map (String.append "/mcp/execute/") (map fst REGISTRY) /\
  NoDup (map fst (paths (openapi REGISTRY base_url))) /\
  (forall n : string,
      String.append "/mcp/execute/" n ∈
        map fst (paths (openapi REGISTRY base_url)) <->
      n ∈ map fst REGISTRY) /\
  (forall (n : string) (t : Tool),
      (n, t) ∈ REGISTRY ->
      exists op : Operation,
        (String.append "/mcp/execute/" n, op) ∈
          paths (openapi REGISTRY base_url) /\
        op_description op = description t /\
        operationId op = String.append "execute_" n /\
        summary op = String.append "Execute " n).
Proof.
  intros Hnd.
  assert (Hkeys : map fst (paths (openapi REGISTRY base_url)) =
                  map (String.append "/mcp/execute/") (map fst REGISTRY)).
  { rewrite openapi_paths by exact Hnd. rewrite !map_map. reflexivity. }
  split; [reflexivity |]. split; [reflexivity |].
  split; [exact Hkeys |]. split; [| split].
  - rewrite Hkeys.
    apply (NoDup_fmap_2 (String.append "/mcp/execute/")). exact Hnd.
  - intros n. rewrite Hkeys.
    apply (list_elem_of_fmap_inj (String.append "/mcp/execute/")).
  - intros n t Hin. exists (operation_of n t).
    split; [| repeat split].
    rewrite openapi_paths by exact Hnd.
    apply list_elem_of_In, in_map_iff. exists (n, t).
    split; [reflexivity | apply list_elem_of_In, Hin].
Qed.

(** The document generated for the sample deployment. *)
Lemma X8_openapi_has_one_path_per_tool_witness :
  map fst (paths (openapi
                    (_build_registry_items
                       (Some [echo_tool; drop_tool; ping_tool]))
                    (Some "http://localhost:8000"))) =
  ["/mcp/execute/echo"; "/mcp/execute/drop-all-data"; "/mcp/execute/ping"].
Proof.
  destruct (X8_openapi_has_one_path_per_tool
              (_build_registry_items (Some [echo_tool; drop_tool; ping_tool]))
              (Some "http://localhost:8000")
              (proj1 (registry_items_spec
                        (Some [echo_tool; drop_tool; ping_tool]))))
    as (_ & _ & H & _).
  rewrite H. vm_compute. reflexivity.
Defined.

(** ** The answers of [execute] *)

Section Envelopes.

Context (w : World) (rid : string) (req : ExecuteRequest).
Context (x_mcp_key : option string) (tool : Tool) (st : State).

Lemma dispatch_envelope :
  exists (code : Z) (body : Content),
    fst (approve_and_dispatch w rid req x_mcp_key tool st) =
      JSONResponse code body /\
    envelope_ok rid req tool code body.
Proof.
  unfold approve_and_dispatch, envelope_ok.
  destruct (approval_required tool) eqn:Ha, (already_approved req) eqn:Hn;
    simpl.
  2: { destruct (persist_approval w (approval_record req x_mcp_key) st).
       eexists. eexists. split; [reflexivity |]. simpl.
       repeat split. right. left. repeat split. }
  all: destruct (dry_run req) eqn:Hd;
    [ eexists; eexists; split; [reflexivity |]; simpl;
      repeat split; left; repeat split; eauto
    | unfold call_provider;
      destruct (server w) as [msg | | call_tool];
      [ | | destruct (call_tool (tool_name req) (arguments req)) as [r | e];
            [ simpl; unfold render_success;
              destruct (unserializable (payload_of w r)) | ] ];
      eexists; eexists; (split; [reflexivity |]); simpl; repeat split;
      first [ left; repeat split; eauto; fail
            | right; right; repeat split; eauto ] ].
Qed.


(** What a request leaves behind past the rate limiter: nothing, or one
    approval record at the end of the store's log, or one provider call
    at the end of the call log. *)
Lemma dispatch_effects :
  let st' := snd (approve_and_dispatch w rid req x_mcp_key tool st) in
  critical_bucket st' = critical_bucket st /\
  ((memory_writes st' = memory_writes st /\ tool_calls st' = tool_calls st) \/
   (memory_writes st' = memory_writes st ++ [approval_record req x_mcp_key] /\
    tool_calls st' = tool_calls st /\
    approval_required tool = true /\ already_approved req = false) \/
   (memory_writes st' = memory_writes st /\
    tool_calls st' = tool_calls st ++ [(tool_name req, arguments req)] /\
    dry_run req = false /\
    (approval_required tool = false \/ already_approved req = true))).
Proof.
  unfold approve_and_dispatch.
  destruct (approval_required tool) eqn:Ha, (already_approved req) eqn:Hn;
    simpl.
  2: { unfold persist_approval. destruct (memory w) as [| write];
         [simpl; auto |].
       destruct (write (approval_record req x_mcp_key)); simpl;
         (split; [reflexivity |]); right; left; auto. }
  all: destruct (dry_run req) eqn:Hd; [simpl; auto |];
    unfold call_provider;
    destruct (server w) as [msg | | call_tool]; [simpl; auto | simpl; auto |];
    destruct (call_tool (tool_name req) (arguments req)); simpl;
    (split; [reflexivity |]); right; right; auto.
Qed.

End Envelopes.



(** X10.  One request has at most one effect outside the bucket: it
    leaves the logs as they were, or it hands one approval record to the
    durable store, or it calls the provider once with the request's tool
    name and arguments; it never does both, it never rewrites earlier
    entries, and it leaves a well-formed bucket well-formed. *)
Theorem X10_one_effect_per_request (cfg : Config) (REGISTRY : gmap string Tool)
    (w : World) (req : ExecuteRequest) (key : option string)
    (ro : option bool) (st : State) :
  bucket_ok (critical_bucket st) ->
  bucket_ok (critical_bucket (snd (execute cfg REGISTRY w req key ro st))) /\
  ((memory_writes (snd (execute cfg REGISTRY w req key ro st)) =
      memory_writes st /\
    tool_calls (snd (execute cfg REGISTRY w req key ro st)) = tool_calls st) \/
   (memory_writes (snd (execute cfg REGISTRY w req key ro st)) =
      memory_writes st ++ [approval_record req key] /\
    tool_calls (snd (execute cfg REGISTRY w req key ro st)) = tool_calls st) \/
   (memory_writes (snd (execute cfg REGISTRY w req key ro st)) =
      memory_writes st /\
    tool_calls (snd (execute cfg REGISTRY w req key ro st)) =
      tool_calls st ++ [(tool_name req, arguments req)])).
Proof.
  intros Hok.
  assert (Hd : forall (tool : Tool) (st0 : State),
             bucket_ok (critical_bucket st0) ->
             memory_writes st0 = memory_writes st ->
             tool_calls st0 = tool_calls st ->
             let st' := snd (approve_and_dispatch w (rid_of w req) req key
                               tool st0) in
             bucket_ok (critical_bucket st') /\
             ((memory_writes st' = memory_writes st /\
               tool_calls st' = tool_calls st) \/
              (memory_writes st' = memory_writes st ++ [approval_record req key] /\
               tool_calls st' = tool_calls st) \/
              (memory_writes st' = memory_writes st /\
               tool_calls st' = tool_calls st ++
                                  [(tool_name req, arguments req)]))).
  { intros tool st0 Hok0 Hm Hc st'.
    destruct (dispatch_effects w (rid_of w req) req key tool st0)
      as (Hb & [[H1 H2] | [(H1 & H2 & _) | (H1 & H2 & _)]]);
      fold st' in Hb, H1, H2; rewrite Hb; (split; [exact Hok0 |]);
      rewrite H1, H2, Hm, Hc; auto. }
  destruct (REGISTRY !! tool_name req) as [tool |] eqn:Hreg.
  2: { rewrite (execute_unknown_tool _ _ _ _ _ _ _ Hreg). simpl. auto. }
  destruct (_validate_key cfg key (read_only_of ro)) eqn:Hk.
  2: { rewrite (execute_unauthorized _ _ _ _ _ _ _ tool Hreg Hk). simpl. auto. }
  rewrite (execute_authorized _ _ _ _ _ _ _ tool Hreg Hk).
  destruct (Py.eq_str (rate_limit_level tool) "CRITICAL").
  - destruct (can_consume_step (critical_bucket st) 1 (time_now w) Hok
                ltac:(lia)) as (ok & b & -> & Hokb & _).
    destruct ok.
    + apply Hd; [exact Hokb | reflexivity | reflexivity].
    + simpl. auto.
  - apply Hd; [exact Hok | reflexivity | reflexivity].
Qed.

(** The approved call of [drop-all-data] on the sample deployment. *)
Lemma X10_one_effect_per_request_witness :
  bucket_ok
    (critical_bucket
       (snd (execute sample_config sample_registry (sample_world 0)
               (approved drop_request) (Some "s3cret") None
               (initial_state 0)))) /\
  memory_writes
    (snd (execute sample_config sample_registry (sample_world 0)
            (approved drop_request) (Some "s3cret") None (initial_state 0))) =
    [] /\
  tool_calls
    (snd (execute sample_config sample_registry (sample_world 0)
            (approved drop_request) (Some "s3cret") None (initial_state 0))) =
    [("drop-all-data", [("_approved", Py.Bool true)])].
Proof.
  destruct (X10_one_effect_per_request sample_config sample_registry
              (sample_world 0) (approved drop_request) (Some "s3cret") None
              (initial_state 0) (critical_bucket_ok 0)) as [Hb _].
  split; [exact Hb |]. vm_compute. split; reflexivity.
Defined.

(** X11.  The bucket is touched by authorized calls of CRITICAL tools
    and by nothing else: a request for an unknown tool, a request that
    fails the key check and a call of a tool of another tier leave it as
    it was.  On an authorized call of a CRITICAL tool the bucket becomes
    exactly what [can_consume] makes of it, whichever tool and caller it
    is, and the call is answered 429 exactly when the bucket refuses: a
    granted token is gone even when the call is then only recorded as
    pending, answered as a dry run, or fails in the provider. *)
Theorem X11_only_critical_calls_touch_the_bucket (cfg : Config)
    (REGISTRY : gmap string Tool) (w : World) (req : ExecuteRequest)
    (key : option string) (ro : option bool) (st : State) :
  ((REGISTRY !! tool_name req = None \/
    _validate_key cfg key (read_only_of ro) = false \/
    exists tool, REGISTRY !! tool_name req = Some tool /\
                 rate_limit_level tool <> Py.Str "CRITICAL") ->
   critical_bucket (snd (execute cfg REGISTRY w req key ro st)) =
     critical_bucket st) /\
  (forall (tool : Tool) (ok : bool) (b : _Bucket),
      REGISTRY !! tool_name req = Some tool ->
      rate_limit_level tool = Py.Str "CRITICAL" ->
      _validate_key cfg key (read_only_of ro) = true ->
      can_consume (critical_bucket st) 1 (time_now w) = Some (ok, b) ->
      critical_bucket (snd (execute cfg REGISTRY w req key ro st)) = b /\
      is_rate_limited (fst (execute cfg REGISTRY w req key ro st)) = negb ok).
Proof.
  split.
  - intros H.
    destruct (REGISTRY !! tool_name req) as [tool |] eqn:Hreg.
    2: { rewrite (execute_unknown_tool _ _ _ _ _ _ _ Hreg). reflexivity. }
    destruct (_validate_key cfg key (read_only_of ro)) eqn:Hk.
    2: { rewrite (execute_unauthorized _ _ _ _ _ _ _ tool Hreg Hk).
         reflexivity. }
    destruct H as [H | [H | (tool' & [= <-] & Hne)]]; try discriminate.
    rewrite (execute_authorized _ _ _ _ _ _ _ tool Hreg Hk).
    destruct (Py.eq_str (rate_limit_level tool) "CRITICAL") eqn:Hc.
    + apply Py_eq_str_true in Hc. contradiction.
    + apply dispatch_effects.
  - intros tool ok b Hreg Hc Hk Hcan.
    rewrite (execute_authorized _ _ _ _ _ _ _ tool Hreg Hk).
    replace (Py.eq_str (rate_limit_level tool) "CRITICAL") with true
      by (rewrite Hc; reflexivity).
    rewrite Hcan. destruct ok.
    + split; [| apply dispatch_not_rate_limited].
      destruct (dispatch_effects w (rid_of w req) req key tool
                  (with_bucket st b)) as [Hb _].
      exact Hb.
    + split; reflexivity.
Qed.

(** A dry run of [drop-all-data] and a call of [echo] on the sample
    deployment: the first takes a token, the second does not. *)
Lemma X11_only_critical_calls_touch_the_bucket_witness :
  critical_bucket
    (snd (execute sample_config sample_registry (sample_world 0)
            (ExecuteRequest_of_body background_body) (Some "s3cret") None
            (initial_state 0))) = _critical_bucket 0 /\
  (tokens (critical_bucket
     (snd (execute sample_config sample_registry (sample_world 0)
             (approved dry_drop_request) (Some "s3cret") None
             (initial_state 0)))) == 4)%Q.
Proof.
  split.
  - apply (proj1 (X11_only_critical_calls_touch_the_bucket sample_config
                    sample_registry (sample_world 0)
                    (ExecuteRequest_of_body background_body) (Some "s3cret")
                    None (initial_state 0))).
    right. right. exists (registry_entry echo_tool).
    split; [vm_compute; reflexivity | vm_compute; discriminate].
  - destruct (proj2 (X11_only_critical_calls_touch_the_bucket sample_config
                       sample_registry (sample_world 0)
                       (approved dry_drop_request) (Some "s3cret") None
                       (initial_state 0))
                (registry_entry drop_tool) true
                {| max_tokens := 5; refill_seconds := 3600;
                   tokens := 5 - 1; last := 0 |}
                ltac:(vm_compute; reflexivity) eq_refl eq_refl eq_refl)
      as [-> _].
    reflexivity.
Defined.

(** X12.  Past the key check the credential plays no part unless an
    approval record is written: for a request that is not held for
    approval, any two credentials that pass the check (the configured
    key, the read-only declaration without any key, or anything at all
    when enforcement is off) get the same answer and leave the same
    state.  The read-only declaration is not compared with the tool. *)
Theorem X12_read_only_declaration_is_a_key (cfg : Config)
    (REGISTRY : gmap string Tool) (w : World) (req : ExecuteRequest)
    (key1 key2 : option string) (ro1 ro2 : option bool) (st : State) :
  _validate_key cfg key1 (read_only_of ro1) = true ->
  _validate_key cfg key2 (read_only_of ro2) = true ->
  (forall tool, REGISTRY !! tool_name req = Some tool ->
                approval_required tool = false \/ already_approved req = true) ->
  execute cfg REGISTRY w req key1 ro1 st =
  execute cfg REGISTRY w req key2 ro2 st.
Proof.
  intros Hk1 Hk2 Hclear.
  destruct (REGISTRY !! tool_name req) as [tool |] eqn:Hreg.
  2: { rewrite !(execute_unknown_tool _ _ _ _ _ _ _ Hreg). reflexivity. }
  rewrite (execute_authorized _ _ _ _ _ _ _ tool Hreg Hk1).
  rewrite (execute_authorized _ _ _ _ _ _ _ tool Hreg Hk2).
  specialize (Hclear tool eq_refl).
  destruct (Py.eq_str (rate_limit_level tool) "CRITICAL").
  - destruct (can_consume (critical_bucket st) 1 (time_now w))
      as [[[|] b] |]; try reflexivity.
    rewrite !dispatch_cleared by exact Hclear. reflexivity.
  - rewrite !dispatch_cleared by exact Hclear. reflexivity.
Qed.

(** [echo] called with the read-only header and no key, against the same
    call with the configured key. *)
Lemma X12_read_only_declaration_is_a_key_witness :
  execute sample_config sample_registry (sample_world 0)
    (ExecuteRequest_of_body background_body) None (Some true)
    (initial_state 0) =
  execute sample_config sample_registry (sample_world 0)
    (ExecuteRequest_of_body background_body) (Some "s3cret") None
    (initial_state 0).
Proof.
  apply X12_read_only_declaration_is_a_key; [reflexivity | reflexivity |].
  intros tool H. left. vm_compute in H. injection H as <-. reflexivity.
Defined.



(** ** Request ids *)

Section RequestIds.

Lemma execute_envelope_id (cfg : Config) (REGISTRY : gmap string Tool)
    (w : World) (req : ExecuteRequest) (key : option string)
    (ro : option bool) (st : State) (code : Z) (body : Content) :
  fst (execute cfg REGISTRY w req key ro st) = JSONResponse code body ->
  resp_request_id body = rid_of w req /\ resp_tool_name body = tool_name req.
Proof.
  unfold execute.
  destruct (REGISTRY !! tool_name req) as [tool |]; [| discriminate].
  destruct (negb (_validate_key cfg key (read_only_of ro))); [discriminate |].
  assert (Hd : forall st0,
             fst (approve_and_dispatch w (rid_of w req) req key tool st0) =
               JSONResponse code body ->
             resp_request_id body = rid_of w req /\
             resp_tool_name body = tool_name req).
  { intros st0 H.
    destruct (dispatch_envelope w (rid_of w req) req key tool st0)
      as (code' & body' & Heq & Hid & Hname & _).
    rewrite Heq in H. injection H as <- <-. split; assumption. }
  destruct (Py.eq_str (rate_limit_level tool) "CRITICAL"); [| apply Hd].
  destruct (can_consume (critical_bucket st) 1 (time_now w))
    as [[[|] b] |]; try discriminate.
  apply Hd.
Qed.

End RequestIds.

(** X14.  Every envelope of [execute] names the request's tool and
    echoes the caller's request id when it gave a non-empty one; an
    absent id and an empty one are both replaced by the generated id.
    [execute_named] leaves the caller no say: its envelopes always carry
    the generated id. *)
Theorem X14_request_ids (cfg : Config) (REGISTRY : gmap string Tool)
    (w : World) (key : option string) (ro : option bool) (st : State)
    (code : Z) (body : Content) :
  (forall req : ExecuteRequest,
      fst (execute cfg REGISTRY w req key ro st) = JSONResponse code body ->
      resp_tool_name body = tool_name req /\
      resp_request_id body =
        match request_id req with
        | Some "" | None => generated_id w (tool_name req)
        | Some id => id
        end) /\
  (forall (tool : string) (args : Py.dict) (dry : bool),
      fst (execute_named cfg REGISTRY w tool args dry key ro st) =
        JSONResponse code body ->
      resp_tool_name body = tool /\
      resp_request_id body = generated_id w tool).
Proof.
  split.
  - intros req H. apply execute_envelope_id in H as [Hid Hname].
    split; [exact Hname |]. rewrite Hid. unfold rid_of.
    destruct (request_id req) as [[| c s] |]; reflexivity.
  - intros tool args dry H. unfold execute_named in H.
    apply execute_envelope_id in H as [Hid Hname].
    split; [exact Hname | exact Hid].
Qed.

(** A call of [echo] with its own id, and the same call by path. *)
Lemma X14_request_ids_witness :
  resp_request_id
    {| success := true; resp_request_id := "r-7"; resp_tool_name := "echo";
       result := Some (Value (Py.Str "hi")); error := None;
       execution_time_ms := 3%Q; governance_level := Py.Str "LOW" |} = "r-7".
Proof.
  destruct (proj1 (X14_request_ids sample_config sample_registry
                     (sample_world 0) (Some "s3cret") None (initial_state 0)
                     200
                     {| success := true; resp_request_id := "r-7";
                        resp_tool_name := "echo";
                        result := Some (Value (Py.Str "hi")); error := None;
                        execution_time_ms := 3%Q;
                        governance_level := Py.Str "LOW" |})
              (ExecuteRequest_of_body background_body)
              ltac:(vm_compute; reflexivity)) as [_ H].
  exact H.
Defined.

(** ** The single-file variant *)

Section SingleFileFacts.

Import SingleFile.

Lemma key_rejected_spec (cfg : Config) (key : option string) :
  key_rejected cfg key = false <->
  key = Some (MCP_API_KEY cfg) /\ MCP_API_KEY cfg <> "".
Proof.
  unfold key_rejected. destruct key as [[| c k] |].
  - split; [discriminate | intros [[= H] Hne]; congruence].
  - rewrite negb_false_iff, String.eqb_eq. split.
    + intros <-. split; [reflexivity | discriminate].
    + intros [[= H] _]. exact H.
  - split; [discriminate | intros [[=] _]].
Qed.

Lemma execute_accepted (cfg : Config) (REGISTRY : gmap string Tool)
    (w : World) (req : ExecuteRequest) (key : option string)
    (ro : option bool) (st : State) (tool : Tool) :
  REGISTRY !! tool_name req = Some tool ->
  SAFE_MODE cfg = false \/ read_only_of ro = true \/
  (key_or_environ key (environ_MCP_API_KEY w) = Some (MCP_API_KEY cfg) /\
   MCP_API_KEY cfg <> "") ->
  execute cfg REGISTRY w req key ro st = dispatch w req tool st.
Proof.
  intros Hreg H. unfold execute, _validate_key. rewrite Hreg.
  destruct (SAFE_MODE cfg) eqn:Hs; [| reflexivity]. simpl.
  destruct (key_rejected cfg (key_or_environ key (environ_MCP_API_KEY w)))
    eqn:Hr; [| reflexivity].
  destruct (read_only_of ro) eqn:Hro; [reflexivity |].
  destruct H as [H | [H | H]]; try discriminate.
  apply key_rejected_spec in H. congruence.
Qed.

Lemma persist_keeps_calls (w : World) (tool : string) (args metadata : Py.dict)
    (st : State) :
  scheduled (_persist_approval_request w tool args metadata st) = scheduled st /\
  tool_calls (_persist_approval_request w tool args metadata st) = tool_calls st.
Proof.
  unfold _persist_approval_request.
  destruct (memory w); split; reflexivity.
Qed.

End SingleFileFacts.

(** X16.  The key check of the single-file variant takes the key from
    the environment when the header is absent or empty.  A request for a
    registered tool goes on to be served exactly when enforcement is
    off, or it declares itself read-only, or that effective key is the
    configured, non-empty one; otherwise it is rejected with 401 and no
    effect.  So where the environment holds the configured key, a
    request without any credential is served. *)
Theorem X16_single_file_key_falls_back_to_environment (cfg : Config)
    (REGISTRY : gmap string Tool) (w : SingleFile.World)
    (req : SingleFile.ExecuteRequest) (key : option string)
    (ro : option bool) (st : SingleFile.State) (tool : Tool) :
  REGISTRY !! SingleFile.tool_name req = Some tool ->
  (SAFE_MODE cfg = false \/ read_only_of ro = true \/
   (SingleFile.key_or_environ key (SingleFile.environ_MCP_API_KEY w) =
      Some (MCP_API_KEY cfg) /\ MCP_API_KEY cfg <> "") ->
   SingleFile.execute cfg REGISTRY w req key ro st =
     SingleFile.dispatch w req tool st) /\
  (~ (SAFE_MODE cfg = false \/ read_only_of ro = true \/
      (SingleFile.key_or_environ key (SingleFile.environ_MCP_API_KEY w) =
         Some (MCP_API_KEY cfg) /\ MCP_API_KEY cfg <> "")) ->
   SingleFile.execute cfg REGISTRY w req key ro st =
     (SingleFile.HTTPException 401 "Missing or invalid X-MCP-KEY header", st)) /\
  (key = None \/ key = Some "" ->
   SingleFile.environ_MCP_API_KEY w = Some (MCP_API_KEY cfg) ->
   MCP_API_KEY cfg <> "" ->
   SingleFile.execute cfg REGISTRY w req key ro st =
     SingleFile.dispatch w req tool st).
Proof.
  intros Hreg.
  pose proof (execute_accepted cfg REGISTRY w req key ro st tool Hreg)
    as Hyes.
  split; [exact Hyes |]. split.
  - intros Hno. unfold SingleFile.execute, SingleFile._validate_key.
    rewrite Hreg.
    destruct (SAFE_MODE cfg) eqn:Hs; [| tauto]. simpl.
    destruct (SingleFile.key_rejected cfg
                (SingleFile.key_or_environ key
                   (SingleFile.environ_MCP_API_KEY w))) eqn:Hr.
    + destruct (read_only_of ro) eqn:Hro; [tauto | reflexivity].
    + apply key_rejected_spec in Hr. tauto.
  - intros Hkey Henv Hne. apply Hyes. right. right.
    split; [| exact Hne].
    destruct Hkey as [-> | ->]; exact Henv.
Qed.

(** [echo] asked of the single-file variant without any header, the
    environment holding the configured key. *)
Lemma X16_single_file_key_falls_back_to_environment_witness :
  SingleFile.execute sample_config sample_registry single_file_world
    (single_file_request "echo" false false) None None single_file_state =
  SingleFile.dispatch single_file_world
    (single_file_request "echo" false false) (registry_entry echo_tool)
    single_file_state.
Proof.
  apply (proj2 (proj2 (X16_single_file_key_falls_back_to_environment
                         sample_config sample_registry single_file_world
                         (single_file_request "echo" false false) None None
                         single_file_state (registry_entry echo_tool)
                         ltac:(vm_compute; reflexivity)))).
  - left. reflexivity.
  - reflexivity.
  - discriminate.
Defined.

(** X17.  The single-file variant answers a dry run before anything
    else: for a registered tool, a request with [dry_run] set is either
    rejected by the key check or answered with the tool's registered
    parameters, its tier and its approval flag, whatever the approval
    flag, the marker and the background flag are; nothing is recorded,
    scheduled or called. *)
Theorem X17_single_file_dry_run_comes_first (cfg : Config)
    (REGISTRY : gmap string Tool) (w : SingleFile.World)
    (req : SingleFile.ExecuteRequest) (key : option string)
    (ro : option bool) (st : SingleFile.State) (tool : Tool) :
  REGISTRY !! SingleFile.tool_name req = Some tool ->
  SingleFile.dry_run req = true ->
  SingleFile.execute cfg REGISTRY w req key ro st =
    (SingleFile.HTTPException 401 "Missing or invalid X-MCP-KEY header", st) \/
  SingleFile.execute cfg REGISTRY w req key ro st =
    (SingleFile.JSONResponse 200
       {| SingleFile.success := true;
          SingleFile.resp_request_id :=
            SingleFile.str_or (SingleFile.request_id req) "dryrun";
          SingleFile.resp_tool_name := SingleFile.tool_name req;
          SingleFile.result :=
            Some (SingleFile.Described (parameters tool)
                    (rate_limit_level tool) (approval_required tool));
          SingleFile.error := None;
          SingleFile.execution_time_ms := None;
          SingleFile.governance_level := None |}, st).
Proof.
  intros Hreg Hdry. unfold SingleFile.execute. rewrite Hreg.
  assert (Hd : SingleFile.dispatch w req tool st =
               (SingleFile.JSONResponse 200
                  {| SingleFile.success := true;
                     SingleFile.resp_request_id :=
                       SingleFile.str_or (SingleFile.request_id req) "dryrun";
                     SingleFile.resp_tool_name := SingleFile.tool_name req;
                     SingleFile.result :=
                       Some (SingleFile.Described (parameters tool)
                               (rate_limit_level tool) (approval_required tool));
                     SingleFile.error := None;
                     SingleFile.execution_time_ms := None;
                     SingleFile.governance_level := None |}, st))
    by (unfold SingleFile.dispatch; rewrite Hdry; reflexivity).
  unfold SingleFile._validate_key.
  destruct (negb (SAFE_MODE cfg)); [right; exact Hd |].
  destruct (SingleFile.key_rejected cfg
              (SingleFile.key_or_environ key
                 (SingleFile.environ_MCP_API_KEY w))); [| right; exact Hd].
  destruct (read_only_of ro); [right; exact Hd | left; reflexivity].
Qed.

(** A dry run of the CRITICAL [drop-all-data], asked in the background
    and without the marker. *)
Lemma X17_single_file_dry_run_comes_first_witness :
  SingleFile.execute sample_config sample_registry single_file_world
    (single_file_request "drop-all-data" true true) (Some "s3cret") None
    single_file_state =
  (SingleFile.JSONResponse 200
     {| SingleFile.success := true;
        SingleFile.resp_request_id := "dryrun";
        SingleFile.resp_tool_name := "drop-all-data";
        SingleFile.result :=
          Some (SingleFile.Described [] (Py.Str "CRITICAL") true);
        SingleFile.error := None;
        SingleFile.execution_time_ms := None;
        SingleFile.governance_level := None |}, single_file_state).
Proof.
  destruct (X17_single_file_dry_run_comes_first sample_config sample_registry
              single_file_world
              (single_file_request "drop-all-data" true true)
              (Some "s3cret") None single_file_state
              (registry_entry drop_tool)
              ltac:(vm_compute; reflexivity) eq_refl) as [H | H].
  - vm_compute in H. discriminate H.
  - rewrite H. vm_compute. reflexivity.
Defined.

(** X18.  In the single-file variant a request that is served and is not
    a dry run is held for approval before its background flag is looked
    at: for an approval-required tool without the marker the answer is
    the 202 pending envelope, and nothing is scheduled or called.
    Otherwise a request with the background flag is answered at once
    with a 202 acknowledgment that carries no result: one task is
    scheduled for the tool and its arguments, and the provider has not
    been called when the answer is made. *)
Theorem X18_single_file_background_is_not_awaited (cfg : Config)
    (REGISTRY : gmap string Tool) (w : SingleFile.World)
    (req : SingleFile.ExecuteRequest) (key : option string)
    (ro : option bool) (st : SingleFile.State) (tool : Tool) :
  REGISTRY !! SingleFile.tool_name req = Some tool ->
  SAFE_MODE cfg = false \/ read_only_of ro = true \/
  (SingleFile.key_or_environ key (SingleFile.environ_MCP_API_KEY w) =
     Some (MCP_API_KEY cfg) /\ MCP_API_KEY cfg <> "") ->
  SingleFile.dry_run req = false ->
  (approval_required tool = true ->
   SingleFile.flag (SingleFile._approved req) = false ->
   fst (SingleFile.execute cfg REGISTRY w req key ro st) =
     SingleFile.JSONResponse 202
       {| SingleFile.success := false;
          SingleFile.resp_request_id :=
            SingleFile.str_or (SingleFile.request_id req) "approval_required";
          SingleFile.resp_tool_name := SingleFile.tool_name req;
          SingleFile.result := None;
          SingleFile.error := Some "approval_required";
          SingleFile.execution_time_ms := None;
          SingleFile.governance_level := Some (rate_limit_level tool) |} /\
   SingleFile.scheduled (snd (SingleFile.execute cfg REGISTRY w req key ro st)) =
     SingleFile.scheduled st /\
   SingleFile.tool_calls (snd (SingleFile.execute cfg REGISTRY w req key ro st)) =
     SingleFile.tool_calls st) /\
  (approval_required tool = false \/
   SingleFile.flag (SingleFile._approved req) = true ->
   SingleFile.flag (SingleFile.background req) = true ->
   SingleFile.execute cfg REGISTRY w req key ro st =
     (SingleFile.JSONResponse 202
        {| SingleFile.success := true;
           SingleFile.resp_request_id :=
             SingleFile.str_or (SingleFile.request_id req) "background";
           SingleFile.resp_tool_name := SingleFile.tool_name req;
           SingleFile.result := None;
           SingleFile.error := None;
           SingleFile.execution_time_ms := None;
           SingleFile.governance_level := None |},
      {| SingleFile.memory_calls := SingleFile.memory_calls st;
         SingleFile.scheduled :=
           SingleFile.scheduled st ++
           [(SingleFile.tool_name req, SingleFile.arguments req)];
         SingleFile.tool_calls := SingleFile.tool_calls st |})).
Proof.
  intros Hreg Hacc Hdry.
  rewrite (execute_accepted cfg REGISTRY w req key ro st tool Hreg Hacc).
  unfold SingleFile.dispatch. rewrite Hdry. split.
  - intros Ha Hn. rewrite Ha, Hn. simpl.
    split; [reflexivity |]. apply persist_keeps_calls.
  - intros Hclear Hbg.
    replace (approval_required tool &&
             negb (SingleFile.flag (SingleFile._approved req))) with false
      by (destruct Hclear as [-> | ->];
          [reflexivity | symmetry; apply andb_false_r]).
    rewrite Hbg. reflexivity.
Qed.

(** [echo] asked in the background of the single-file variant. *)
Lemma X18_single_file_background_is_not_awaited_witness :
  SingleFile.execute sample_config sample_registry single_file_world
    (single_file_request "echo" false true) (Some "s3cret") None
    single_file_state =
  (SingleFile.JSONResponse 202
     {| SingleFile.success := true;
        SingleFile.resp_request_id := "background";
        SingleFile.resp_tool_name := "echo";
        SingleFile.result := None;
        SingleFile.error := None;
        SingleFile.execution_time_ms := None;
        SingleFile.governance_level := None |},
   {| SingleFile.memory_calls := [];
      SingleFile.scheduled := [("echo", [("text", Py.Str "hi")])];
      SingleFile.tool_calls := [] |}).
Proof.
  exact (proj2 (X18_single_file_background_is_not_awaited sample_config
                  sample_registry single_file_world
                  (single_file_request "echo" false true) (Some "s3cret") None
                  single_file_state (registry_entry echo_tool)
                  ltac:(vm_compute; reflexivity)
                  ltac:(right; right; split; [reflexivity | discriminate])
                  eq_refl)
           ltac:(left; reflexivity) eq_refl).
Defined.

(** ** The parameters of a registry entry *)

Section Parameters.

Lemma mem_spec (k : string) (xs : list string) :
  Py.mem k xs = true <-> k ∈ xs.
Proof.
  unfold Py.mem. rewrite existsb_exists. split.
  - intros (x & Hin & Heq). apply String.eqb_eq in Heq. subst.
    apply list_elem_of_In, Hin.
  - intros Hin. exists k. split; [apply list_elem_of_In, Hin |].
    apply String.eqb_refl.
Qed.

End Parameters.

(** X19.  The parameters of a registry entry follow the descriptor's
    schema: one parameter per property, in the order of the schema and
    under the property's name; a property without a type is registered
    as a ["string"] and one without a description with the empty one;
    the required flag is set exactly for the names the schema lists as
    required, and a required name that is no property gives no
    parameter.  A descriptor without a schema, or whose schema has no
    properties, is registered without parameters. *)
Theorem X19_parameters_follow_the_schema (t : RawTool) :
  let schema := schema_of t in
  let props := or_else (properties schema) [] in
  let reqd := or_else (required schema) [] in
  map param_name (parameters (registry_entry t)) = map fst props /\
  (forall p : Param,
      p ∈ parameters (registry_entry t) ->
      (param_required p = true <-> param_name p ∈ reqd) /\
      exists v : Py.dict,
        (param_name p, v) ∈ props /\
        param_type p =
          match Py.lookup "type" v with
          | Some ty => ty
          | None => Py.Str "string"
          end /\
        param_description p =
          match Py.lookup "description" v with
          | Some d => d
          | None => Py.Str ""
          end) /\
  (raw_inputSchema t = None \/ properties schema = None \/
   properties schema = Some [] ->
   parameters (registry_entry t) = []).
Proof.
  intros schema props reqd. unfold registry_entry. cbn [parameters].
  unfold build_params. fold schema. fold props. fold reqd.
  split; [| split].
  - rewrite map_map. reflexivity.
  - intros p Hp. apply list_elem_of_In, in_map_iff in Hp as ([k v] & <- & Hin).
    cbn [param_required param_name param_type param_description fst snd].
    split; [apply mem_spec |].
    exists v. split; [apply list_elem_of_In, Hin |].
    split; reflexivity.
  - intros H. subst props schema. unfold schema_of in *.
    destruct H as [H | [H | H]].
    + rewrite H. reflexivity.
    + rewrite H. reflexivity.
    + rewrite H. reflexivity.
Qed.
